(** * Information Authenticator: a shallow embedding of [app.py]

    The development follows the Flask backend function by function:
    the confidence classifier, the two paper-search adapters, the summary
    generator, the verification logic and the chatbot route.

    Python values that come out of [response.json()] are modelled by the
    inductive type [pyval]; Python exceptions by the [Raise] constructor of
    [result]; calls to the outside world (HTTP providers, the SQLite log, the
    text-generation provider) by a state-and-exception monad [M] that records
    every call in a trace and reads the collaborators' answers in a [world]. *)

From Stdlib Require Import ZArith Ascii String DecimalString List Bool Lia.
From Stdlib Require Import Floats.SpecFloat.
From stdpp Require Import base relations gmap strings list.

Open Scope string_scope.
Open Scope Z_scope.

(** ** Python values *)

Set Warnings "-register-all".

(** The values [json.loads] can build.  A [dict] keeps its items in
    insertion order; its keys are distinct. *)
Inductive pyval : Type :=
| PNone
| PBool (b : bool)
| PInt (z : Z)
| PFloat (f : spec_float)
| PStr (s : string)
| PList (l : list pyval)
| PDict (d : list (string * pyval)).

(** The subclasses of [Exception] that the modelled code can raise.  Every
    handler in [app.py] is [except Exception], so the class is never
    inspected; it is kept for readability. *)
Inductive exn : Type :=
| TypeError
| KeyError
| IndexError
| AttributeError
| OverflowError
| ValueError
| RequestException
| ProviderError.

Inductive result (A : Type) : Type :=
| Ok (a : A)
| Raise (e : exn).
Arguments Ok {A} a.
Arguments Raise {A} e.

Definition rbind {A B} (r : result A) (k : A -> result B) : result B :=
  match r with
  | Ok a => k a
  | Raise e => Raise e
  end.

Notation "x <-? r ;; k" := (rbind r (fun x => k))
  (at level 100, r at next level, right associativity).

(** [[f(x) for x in l]] where [f] may raise: the first exception wins. *)
Fixpoint rmap {A B} (f : A -> result B) (l : list A) : result (list B) :=
  match l with
  | [] => Ok []
  | x :: l' => y <-? f x ;; ys <-? rmap f l' ;; Ok (y :: ys)
  end.

(** A [for] loop threading an accumulator, where the body may raise. *)
Fixpoint rfold {A B} (f : B -> A -> result B) (l : list A) (acc : B) : result B :=
  match l with
  | [] => Ok acc
  | x :: l' => acc' <-? f acc x ;; rfold f l' acc'
  end.

Definition newline : string := String "010"%char EmptyString.

(** ** Operations on Python values *)

Fixpoint is_substring_at (needle hay : string) : bool :=
  match needle, hay with
  | EmptyString, _ => true
  | String _ _, EmptyString => false
  | String a n', String b h' => if Ascii.eqb a b then is_substring_at n' h' else false
  end.

Fixpoint is_substring (needle hay : string) : bool :=
  is_substring_at needle hay
  || match hay with
     | EmptyString => false
     | String _ h' => is_substring needle h'
     end.

Definition is_pstr (k : string) (v : pyval) : bool :=
  match v with
  | PStr s => String.eqb k s
  | _ => false
  end.

Fixpoint dict_lookup (k : string) (d : list (string * pyval)) : option pyval :=
  match d with
  | [] => None
  | (k', v) :: d' => if String.eqb k k' then Some v else dict_lookup k d'
  end.

(** [k in v] for a string [k]. *)
Definition py_in (k : string) (v : pyval) : result bool :=
  match v with
  | PDict d => Ok (bool_decide (is_Some (dict_lookup k d)))
  | PList l => Ok (existsb (is_pstr k) l)
  | PStr s => Ok (is_substring k s)
  | _ => Raise TypeError
  end.

(** [v[k]] for a string [k]. *)
Definition py_getitem (v : pyval) (k : string) : result pyval :=
  match v with
  | PDict d => match dict_lookup k d with
               | Some x => Ok x
               | None => Raise KeyError
               end
  | _ => Raise TypeError
  end.

(** [v[0]]. *)
Definition py_getitem0 (v : pyval) : result pyval :=
  match v with
  | PList (x :: _) => Ok x
  | PList [] => Raise IndexError
  | PStr (String a _) => Ok (PStr (String a EmptyString))
  | PStr EmptyString => Raise IndexError
  | PDict _ => Raise KeyError
  | _ => Raise TypeError
  end.

(** [v.get(k, default)]: only a [dict] has the method. *)
Definition py_get (v : pyval) (k : string) (default : pyval) : result pyval :=
  match v with
  | PDict d => Ok (match dict_lookup k d with
                   | Some x => x
                   | None => default
                   end)
  | _ => Raise AttributeError
  end.

Fixpoint string_take (n : nat) (s : string) : string :=
  match n, s with
  | O, _ => EmptyString
  | S _, EmptyString => EmptyString
  | S n', String a s' => String a (string_take n' s')
  end.

Fixpoint chars (s : string) : list pyval :=
  match s with
  | EmptyString => []
  | String a s' => PStr (String a EmptyString) :: chars s'
  end.

(** [v[:n]] for a non-negative literal [n].  Slicing a [dict] raises
    (a [TypeError] up to Python 3.11, a [KeyError] from 3.12 on). *)
Definition py_slice_to (v : pyval) (n : nat) : result pyval :=
  match v with
  | PStr s => Ok (PStr (string_take n s))
  | PList l => Ok (PList (take n l))
  | _ => Raise TypeError
  end.

(** The elements a [for] loop over [v] visits. *)
Definition py_iter (v : pyval) : result (list pyval) :=
  match v with
  | PList l => Ok l
  | PDict d => Ok (map (fun kv => PStr (fst kv)) d)
  | PStr s => Ok (chars s)
  | _ => Raise TypeError
  end.

(** [len(v)] where it is defined. *)
Definition py_len (v : pyval) : option nat :=
  match v with
  | PStr s => Some (String.length s)
  | PList l => Some (length l)
  | PDict d => Some (length d)
  | _ => None
  end.

(** [l[:k]] on a list, for any integer [k]: a negative bound counts from
    the end. *)
Definition list_slice_to {A} (l : list A) (k : Z) : list A :=
  if 0 <=? k then take (Z.to_nat k) l
  else take (Z.to_nat (Z.of_nat (length l) + k)) l.

(** [l[-k:]] for a positive literal [k]: the last [k] elements, or all of
    them when there are fewer. *)
Definition list_last_n {A} (k : nat) (l : list A) : list A :=
  drop (length l - k)%nat l.

(** ** Floating point: [int(limit * 0.7)] *)

(** Python floats are IEEE 754 binary64. *)
Definition prec : Z := 53.
Definition emax : Z := 1024.

(** The literal [0.7]: the double nearest to 7/10. *)
Definition float_0_7 : spec_float := S754_finite false 6305039478318694 (-53).

(** [float(z)] as done by [int * float]: correctly rounded, and an
    [OverflowError] when the integer is too large for a double. *)
Definition float_of_int (z : Z) : result spec_float :=
  match binary_normalize prec emax z 0 false with
  | S754_infinity _ => Raise OverflowError
  | f => Ok f
  end.

(** [int(f)]: truncation toward zero. *)
Definition int_of_float (f : spec_float) : result Z :=
  match f with
  | S754_zero _ => Ok 0
  | S754_infinity _ => Raise OverflowError
  | S754_nan => Raise ValueError
  | S754_finite s m e =>
      let magnitude := match e with
                       | Zneg p => Z.pos m / 2 ^ Z.pos p
                       | _ => Z.pos m * 2 ^ e
                       end in
      Ok (if s then - magnitude else magnitude)
  end.

(** [int(limit * 0.7)] *)
Definition int_mul_0_7 (limit : Z) : result Z :=
  x <-? float_of_int limit ;;
  int_of_float (SFmul prec emax x float_0_7).

(** ** Confidence calculation *)

Definition calculate_confidence (result_count : Z) : string :=
  if result_count =? 0 then "Not supported"
  else if (1 <=? result_count) && (result_count <=? 3) then "Weak Evidence"
  else if (4 <=? result_count) && (result_count <=? 9) then "Moderate Evidence"
  else "Strong Evidence".

(** ** Records of the data model *)

(** The [dict] literal both adapters append: always the same four keys. *)
Record PaperRecord : Type := {
  title : pyval;
  url : pyval;
  year : pyval;
  abstract : pyval
}.

(** One entry of [session['chat_history']]. *)
Record ChatTurn : Type := {
  user : string;
  assistant : string
}.

(** The [dict] returned by [verify_information]. *)
Record VerificationResult : Type := {
  found : bool;
  confidence : string;
  result_count : Z;
  summary : string;
  results : list PaperRecord
}.

(** The pair [(jsonify({...}), status)] returned by the chatbot route. *)
Record ChatResponse : Type := {
  status : Z;
  error : option string;
  reply : string
}.

(** ** The outside world *)

Record http_response : Type := {
  status_code : Z;
  json_body : option pyval   (* [None]: the body is not JSON, [.json()] raises *)
}.

(** What the collaborators answer.  [requests_get] and [generate_content]
    give [None] when the call raises. *)
Record world : Type := {
  requests_get :
    string -> list (string * pyval) -> list (string * string) -> option http_response;
  generate_content : string -> option string
}.

(** The calls made to the collaborators, oldest first. *)
Inductive event : Type :=
| HttpGet (api_url : string) (params : list (string * pyval)) (headers : list (string * string))
| DbInsert (query_text : string) (count : Z) (confidence_level : string)
| GenerateContent (prompt : string).

(** The state a request handler runs in: the calls made so far and the
    Flask session, where [None] means that the key ['chat_history'] is not
    in the session. *)
Record state : Type := {
  calls : list event;
  chat_history : option (list ChatTurn)
}.

(** ** The state-and-exception monad *)

Definition M (A : Type) : Type := state -> result A * state.

Definition ret {A} (a : A) : M A := fun s => (Ok a, s).

Definition bind {A B} (m : M A) (k : A -> M B) : M B :=
  fun s => match m s with
           | (Ok a, s') => k a s'
           | (Raise e, s') => (Raise e, s')
           end.

Notation "x <- m ;; k" := (bind m (fun x => k))
  (at level 100, m at next level, right associativity).
Notation "m ;;; k" := (bind m (fun _ => k))
  (at level 100, right associativity).

Definition lift {A} (r : result A) : M A := fun s => (r, s).

(** [try: body except Exception: handler]: the effects of [body] up to the
    exception stay. *)
Definition try_except {A} (body : M A) (handler : exn -> M A) : M A :=
  fun s => match body s with
           | (Ok a, s') => (Ok a, s')
           | (Raise e, s') => handler e s'
           end.

Definition emit (ev : event) : M unit :=
  fun s => (Ok tt, {| calls := (calls s ++ [ev])%list; chat_history := chat_history s |}).

Definition get_chat_history : M (option (list ChatTurn)) :=
  fun s => (Ok (chat_history s), s).

Definition set_chat_history (h : list ChatTurn) : M unit :=
  fun s => (Ok tt, {| calls := calls s; chat_history := Some h |}).

Definition http_get (w : world) (api_url : string) (params : list (string * pyval))
    (headers : list (string * string)) : M http_response :=
  emit (HttpGet api_url params headers) ;;;
  match requests_get w api_url params headers with
  | Some response => ret response
  | None => lift (Raise RequestException)
  end.

Definition response_json (response : http_response) : M pyval :=
  match json_body response with
  | Some data => ret data
  | None => lift (Raise ValueError)
  end.

(** [genai.GenerativeModel(...).generate_content(prompt).text] *)
Definition gemini (w : world) (prompt : string) : M string :=
  emit (GenerateContent prompt) ;;;
  match generate_content w prompt with
  | Some text => ret text
  | None => lift (Raise ProviderError)
  end.

(** ** Python built-ins that are not reproduced *)

(** [str.lower], [str.strip] and the formatting of a value inside an
    f-string are taken as they are: every theorem below holds whatever
    these functions compute. *)
Record builtins : Type := {
  str_lower : string -> string;
  str_strip : string -> string;
  py_str : pyval -> string
}.

Section App.

Variable py : builtins.

(** ** Database *)

(** [save_query_to_db] catches every exception itself: the caller sees the
    attempted insertion and nothing else. *)
Definition save_query_to_db (query_text : string) (count : Z) (confidence_level : string)
    : M unit :=
  emit (DbInsert query_text count confidence_level).

(** ** Semantic Scholar *)

(** The [dict] built for one item of [data['data']]. *)
Definition semantic_scholar_record (paper : pyval) : result PaperRecord :=
  title_ <-? py_get paper "title" (PStr "No title available") ;;
  paper_id <-? py_get paper "paperId" (PStr "") ;;
  url_ <-? py_get paper "url"
            (PStr ("https://www.semanticscholar.org/paper/" ++ py_str py paper_id)) ;;
  year_ <-? py_get paper "year" (PStr "N/A") ;;
  abstract_ <-? py_get paper "abstract" (PStr "No abstract available") ;;
  abstract_ <-? py_slice_to abstract_ 500 ;;
  Ok {| title := title_; url := url_; year := year_; abstract := abstract_ |}.

Definition search_semantic_scholar (w : world) (query : string) (limit : Z)
    : M (list PaperRecord) :=
  try_except
    (let api_url := "https://api.semanticscholar.org/graph/v1/paper/search" in
     let params := [("query", PStr query); ("limit", PInt limit);
                    ("fields", PStr "title,url,year,abstract,paperId")] in
     let headers := [("User-Agent", "Information-Authenticator/1.0")] in
     response <- http_get w api_url params headers ;;
     if status_code response =? 200 then
       data <- response_json response ;;
       has_data <- lift (py_in "data" data) ;;
       if has_data : bool then
         lift (items <-? py_getitem data "data" ;;
               papers <-? py_iter items ;;
               rmap semantic_scholar_record papers)
       else ret []
     else ret [])
    (fun _ => ret []).

(** ** CrossRef *)

(** The [dict] built for one item of [data['message']['items']]. *)
Definition crossref_record (item : pyval) : result PaperRecord :=
  has_published <-? py_in "published" item ;;
  year_ <-? (if has_published : bool then
               published <-? py_getitem item "published" ;;
               has_parts <-? py_in "date-parts" published ;;
               if has_parts : bool then
                 parts <-? py_getitem published "date-parts" ;;
                 first <-? py_getitem0 parts ;;
                 py_getitem0 first
               else Ok (PStr "N/A")
             else Ok (PStr "N/A")) ;;
  titles <-? py_get item "title" (PList [PStr "No title available"]) ;;
  title_ <-? py_getitem0 titles ;;
  doi <-? py_get item "DOI" (PStr "") ;;
  abstract_ <-? py_get item "abstract" (PStr "No abstract available") ;;
  abstract_ <-? py_slice_to abstract_ 500 ;;
  Ok {| title := title_;
        url := PStr ("https://doi.org/" ++ py_str py doi);
        year := year_;
        abstract := abstract_ |}.

Definition search_crossref (w : world) (query : string) (limit : Z)
    : M (list PaperRecord) :=
  try_except
    (let api_url := "https://api.crossref.org/works" in
     let params := [("query", PStr query); ("rows", PInt limit);
                    ("select", PStr "title,DOI,published,abstract")] in
     let headers := [("User-Agent",
                      "Information-Authenticator/1.0 (mailto:user@example.com)")] in
     response <- http_get w api_url params headers ;;
     if status_code response =? 200 then
       data <- response_json response ;;
       has_items <- lift (has_message <-? py_in "message" data ;;
                          if has_message : bool then
                            message <-? py_getitem data "message" ;;
                            py_in "items" message
                          else Ok false) ;;
       if has_items : bool then
         lift (message <-? py_getitem data "message" ;;
               items <-? py_getitem message "items" ;;
               items <-? py_iter items ;;
               rmap crossref_record items)
       else ret []
     else ret [])
    (fun _ => ret []).

(** ** Gemini summary *)

(** The f-string [f"Title: {title}\nAbstract: {abstract}\n\n"].  Every
    record has both keys, so the defaults of [p.get] are never used. *)
Definition paper_text (p : PaperRecord) : string :=
  "Title: " ++ py_str py (title p) ++ newline
  ++ "Abstract: " ++ py_str py (abstract p) ++ newline ++ newline.

(** One round of [content += ...]. *)
Definition summary_entry (content : string) (p : PaperRecord) : string :=
  content ++ paper_text p.

Definition summary_prompt (content : string) : string :=
  newline
  ++ "    Summarize the following academic research papers into a clear," ++ newline
  ++ "    concise 5-7 line explanation suitable for a general audience:" ++ newline
  ++ newline
  ++ "    " ++ content ++ newline
  ++ newline
  ++ "    Provide a coherent summary that highlights the main findings and consensus."
  ++ newline
  ++ "    ".

Definition generate_summary (w : world) (papers : list PaperRecord) : M string :=
  match papers with
  | [] => ret "No papers available to summarize."
  | _ :: _ =>
      let content := fold_left summary_entry papers "" in
      let prompt := summary_prompt content in
      try_except
        (text <- gemini w prompt ;;
         ret (str_strip py text))
        (fun _ => ret "AI summary unavailable due to Gemini API error.")
  end.

(** ** Main verification logic *)

(** [p['title'].lower()]: only a [str] has the method. *)
Definition lower_title (p : PaperRecord) : result string :=
  match title p with
  | PStr s => Ok (str_lower py s)
  | _ => Raise AttributeError
  end.

(** The body of the loop over [crossref_papers]. *)
Definition add_if_new (existing_titles : gset string) (all_papers : list PaperRecord)
    (paper : PaperRecord) : result (list PaperRecord) :=
  t <-? lower_title paper ;;
  Ok (if bool_decide (t ∉ existing_titles) then (all_papers ++ [paper])%list else all_papers).

(** Combining the two result lists: from [all_papers = semantic_papers.copy()]
    to [all_papers = all_papers[:limit]]. *)
Definition combine_papers (semantic_papers crossref_papers : list PaperRecord) (limit : Z)
    : result (list PaperRecord) :=
  let all_papers := semantic_papers in
  titles <-? rmap lower_title all_papers ;;
  let existing_titles : gset string := list_to_set titles in
  all_papers <-? rfold (add_if_new existing_titles) crossref_papers all_papers ;;
  Ok (list_slice_to all_papers limit).

Definition verify_information (w : world) (query : string) (limit : Z)
    : M VerificationResult :=
  semantic_limit <- lift (int_mul_0_7 limit) ;;
  let crossref_limit := limit - semantic_limit in
  semantic_papers <- search_semantic_scholar w query semantic_limit ;;
  crossref_papers <- search_crossref w query crossref_limit ;;
  all_papers <- lift (combine_papers semantic_papers crossref_papers limit) ;;
  let count := Z.of_nat (length all_papers) in
  let confidence_ := calculate_confidence count in
  save_query_to_db query count confidence_ ;;;
  summary_ <- generate_summary w all_papers ;;
  if 0 <? count then
    ret {| found := true;
           confidence := confidence_;
           result_count := count;
           summary := summary_;
           results := all_papers |}
  else
    ret {| found := false;
           confidence := confidence_;
           result_count := 0;
           summary := "No research papers found to generate a summary.";
           results := [] |}.

(** ** Chatbot *)

Definition persona : string :=
  "You are a helpful AI assistant for an Information Authenticator app that verifies claims using academic research. Be concise, friendly, and informative."
  ++ newline ++ newline.

(** The f-string [f"User: {entry['user']}\nAssistant: {entry['assistant']}\n\n"]. *)
Definition turn_text (entry : ChatTurn) : string :=
  "User: " ++ user entry ++ newline
  ++ "Assistant: " ++ assistant entry ++ newline ++ newline.

(** One round of [conversation_prompt += ...]. *)
Definition chat_entry (conversation_prompt : string) (entry : ChatTurn) : string :=
  conversation_prompt ++ turn_text entry.

Definition current_message (user_message : string) : string :=
  "User: " ++ user_message ++ newline ++ "Assistant:".

(** [session['chat_history']] *)
Definition session_chat_history : M (list ChatTurn) :=
  h <- get_chat_history ;;
  match h with
  | Some l => ret l
  | None => lift (Raise KeyError)
  end.

(** [.strip()] on the value of the ['message'] field. *)
Definition strip_message (message : pyval) : result string :=
  match message with
  | PStr s => Ok (str_strip py s)
  | _ => Raise AttributeError
  end.

(** The conversation prompt: the persona, the last 10 entries of the
    history, the current message. *)
Definition build_prompt (history : list ChatTurn) (user_message : string) : string :=
  let conversation_prompt := persona in
  let conversation_prompt :=
    fold_left chat_entry (list_last_n 10 history) conversation_prompt in
  conversation_prompt ++ current_message user_message.

(** [request.get_json().get('message', '').strip()], where [request_json]
    is what [request.get_json()] gives, [None] when it raises. *)
Definition request_message (request_json : option pyval) : result string :=
  data <-? match request_json with
           | Some d => Ok d
           | None => Raise ValueError
           end ;;
  message <-? py_get data "message" (PStr "") ;;
  strip_message message.

(** The route [/chatbot]. *)
Definition chatbot (w : world) (request_json : option pyval) : M ChatResponse :=
  try_except
    (user_message <- lift (request_message request_json) ;;
     if String.eqb user_message "" then
       ret {| status := 400;
              error := Some "No message provided";
              reply := "Please enter a message." |}
     else
       present <- get_chat_history ;;
       (match present with
        | None => set_chat_history []
        | Some _ => ret tt
        end) ;;;
       history <- session_chat_history ;;
       let conversation_prompt := build_prompt history user_message in
       text <- gemini w conversation_prompt ;;
       let bot_reply := str_strip py text in
       set_chat_history
         (history ++ [{| user := user_message; assistant := bot_reply |}])%list ;;;
       ret {| status := 200; error := None; reply := bot_reply |})
    (fun _ =>
       ret {| status := 500;
              error := Some "Failed to generate response";
              reply := "Sorry, I encountered an error. Please try again." |}).

(** The route [/chatbot/clear]. *)
Definition clear_chat : M string :=
  set_chat_history [] ;;;
  ret "Chat history cleared".

End App.

(** ** Vocabulary of the statements *)

(** The turns a session holds: none when the key is absent. *)
Definition turns (s : state) : list ChatTurn := default [] (chat_history s).

(** The state after one more call to a collaborator. *)
Definition add_call (s : state) (ev : event) : state :=
  {| calls := (calls s ++ [ev])%list; chat_history := chat_history s |}.

(** The state a handler starts in on a new session. *)
Definition fresh : state := {| calls := []; chat_history := None |}.

(** The answer of the route [/chatbot] when anything in it raises. *)
Definition failure_response : ChatResponse :=
  {| status := 500;
     error := Some "Failed to generate response";
     reply := "Sorry, I encountered an error. Please try again." |}.

(** The answer of the route [/chatbot] to an empty message. *)
Definition empty_message_response : ChatResponse :=
  {| status := 400;
     error := Some "No message provided";
     reply := "Please enter a message." |}.

(** The serialization of a list of turns, oldest first. *)
Fixpoint transcript (entries : list ChatTurn) : string :=
  match entries with
  | [] => ""
  | entry :: rest => turn_text entry ++ transcript rest
  end.

(** The session after the requests [requests], sent one after the other. *)
Definition chat_all (py : builtins) (w : world) (requests : list pyval) (s : state)
    : state :=
  fold_left (fun s request_json => snd (chatbot py w (Some request_json) s)) requests s.

(** One successful exchange with the chatbot: the route answers 200. *)
Definition chat_ok (py : builtins) (s s' : state) : Prop :=
  exists w request_json r,
    chatbot py w request_json s = (Ok r, s') /\ status r = 200.

(** [p]'s title is text and lowers to [t]. *)
Definition has_key (py : builtins) (t : string) (p : PaperRecord) : bool :=
  match lower_title py p with
  | Ok t' => String.eqb t t'
  | Raise _ => false
  end.

(** [p]'s title is a [str]. *)
Definition text_title (p : PaperRecord) : bool :=
  match title p with
  | PStr _ => true
  | _ => false
  end.

(** The number of entries of [ps] whose title lowers to [t]. *)
Definition title_count (py : builtins) (t : string) (ps : list PaperRecord) : nat :=
  length (List.filter (has_key py t) ps).

(** [c]'s lowered title is the lowered title of no entry of [primary]. *)
Definition is_new (py : builtins) (primary : list PaperRecord) (c : PaperRecord) : bool :=
  match lower_title py c with
  | Ok t => negb (existsb (has_key py t) primary)
  | Raise _ => false
  end.

(** The secondary results that survive the comparison with the primary
    titles. *)
Definition kept_crossref (py : builtins) (primary secondary : list PaperRecord)
    : list PaperRecord :=
  List.filter (is_new py primary) secondary.

(** The merge as the specification words it: a secondary result is
    appended only if its title is not in the set of already-included titles,
    a set that covers the primary results and the secondary results
    appended so far. *)
Fixpoint spec_append_unique (py : builtins) (included : gset string)
    (all_papers secondary : list PaperRecord) : result (list PaperRecord) :=
  match secondary with
  | [] => Ok all_papers
  | paper :: rest =>
      t <-? lower_title py paper ;;
      if bool_decide (t ∈ included) then spec_append_unique py included all_papers rest
      else spec_append_unique py ({[t]} ∪ included) (all_papers ++ [paper])%list rest
  end.

Definition spec_combine_papers (py : builtins) (primary secondary : list PaperRecord)
    (limit : Z) : result (list PaperRecord) :=
  titles <-? rmap (lower_title py) primary ;;
  all_papers <-? spec_append_unique py (list_to_set titles) primary secondary ;;
  Ok (list_slice_to all_papers limit).

(** The deduplication as the specification states it, first half: the
    code appends exactly what the merge above appends. *)
Definition appended_only_if_not_included (py : builtins)
    (primary secondary : list PaperRecord) (limit : Z) : Prop :=
  combine_papers py primary secondary limit = spec_combine_papers py primary secondary limit.

(** Second half: a title returned by both providers has exactly one entry
    in the combined result. *)
Definition one_entry_per_shared_title (py : builtins)
    (primary secondary : list PaperRecord) (limit : Z) : Prop :=
  forall r t,
    combine_papers py primary secondary limit = Ok r ->
    existsb (has_key py t) primary = true ->
    existsb (has_key py t) secondary = true ->
    title_count py t r = 1%nat.

(** 70% rounded down, in exact arithmetic. *)
Definition seventy_percent (limit : Z) : Z := 7 * limit / 10.

(** The two requests [verify_information] sends for the quotas
    [semantic_limit] and [crossref_limit]. *)
Definition semantic_scholar_request (query : string) (semantic_limit : Z) : event :=
  HttpGet "https://api.semanticscholar.org/graph/v1/paper/search"
    [("query", PStr query); ("limit", PInt semantic_limit);
     ("fields", PStr "title,url,year,abstract,paperId")]
    [("User-Agent", "Information-Authenticator/1.0")].

Definition crossref_request (query : string) (crossref_limit : Z) : event :=
  HttpGet "https://api.crossref.org/works"
    [("query", PStr query); ("rows", PInt crossref_limit);
     ("select", PStr "title,DOI,published,abstract")]
    [("User-Agent", "Information-Authenticator/1.0 (mailto:user@example.com)")].

(** ** Worlds and data for the examples *)

(** Both search providers unreachable, the text generator failing. *)
Definition offline : world :=
  {| requests_get := fun _ _ _ => None; generate_content := fun _ => None |}.

(** Both search providers answer 200 with the given bodies; the text
    generator gives [answer]. *)
Definition serving (semantic_body crossref_body : pyval) (answer : option string) : world :=
  {| requests_get := fun api_url _ _ =>
       Some {| status_code := 200;
               json_body :=
                 Some (if String.eqb api_url
                            "https://api.semanticscholar.org/graph/v1/paper/search"
                       then semantic_body else crossref_body) |};
     generate_content := fun _ => answer |}.

(** A record as an adapter emits it. *)
Definition paper (title_ source : string) : PaperRecord :=
  {| title := PStr title_; url := PStr source; year := PInt 2020;
     abstract := PStr "No abstract available" |}.

(** ** An instance of the built-ins for 7-bit text *)

(** The theorems hold for any [builtins]; to run the model on examples we
    fix the instance that is exact on ASCII text. *)

Definition ascii_lower_char (c : ascii) : ascii :=
  let n := nat_of_ascii c in
  if (65 <=? n)%nat && (n <=? 90)%nat then ascii_of_nat (n + 32) else c.

Fixpoint ascii_lower (s : string) : string :=
  match s with
  | EmptyString => EmptyString
  | String c s' => String (ascii_lower_char c) (ascii_lower s')
  end.

(** Space, [\t \n \v \f \r] and the separators [\x1c] to [\x1f]. *)
Definition ascii_is_space (c : ascii) : bool :=
  let n := nat_of_ascii c in
  (n =? 32)%nat || ((9 <=? n)%nat && (n <=? 13)%nat) || ((28 <=? n)%nat && (n <=? 31)%nat).

Fixpoint ascii_lstrip (s : string) : string :=
  match s with
  | EmptyString => EmptyString
  | String c s' => if ascii_is_space c then ascii_lstrip s' else s
  end.

Fixpoint ascii_rstrip (s : string) : string :=
  match s with
  | EmptyString => EmptyString
  | String c s' =>
      match ascii_rstrip s' with
      | EmptyString => if ascii_is_space c then EmptyString else String c EmptyString
      | rest => String c rest
      end
  end.

Definition ascii_strip (s : string) : string := ascii_rstrip (ascii_lstrip s).

(** [str(v)] on the scalars; the [repr] of floats, lists and dicts is not
    reproduced, and no example below formats one. *)
Definition scalar_str (v : pyval) : string :=
  match v with
  | PNone => "None"
  | PBool true => "True"
  | PBool false => "False"
  | PInt z => DecimalString.NilZero.string_of_int (Z.to_int z)
  | PStr s => s
  | PFloat _ | PList _ | PDict _ => "..."
  end.

Definition ascii_py : builtins :=
  {| str_lower := ascii_lower; str_strip := ascii_strip; py_str := scalar_str |}.

(** The labels grow with the result count: 0 for "Not supported" up to 3 for
    "Strong Evidence". *)
Definition label_rank (label : string) : Z :=
  if String.eqb label "Not supported" then 0
  else if String.eqb label "Weak Evidence" then 1
  else if String.eqb label "Moderate Evidence" then 2
  else 3.


(** Primary returns the same title twice, in two spellings; secondary
    returns it once more, and a second title twice. *)
Definition primary_dup : list PaperRecord :=
  [paper "Effects of X" "semantic"; paper "EFFECTS OF X" "semantic"].

Definition secondary_dup : list PaperRecord :=
  [paper "effects of x" "crossref";
   paper "Sleep and memory" "crossref";
   paper "SLEEP AND MEMORY" "crossref"].

(** Two items from Semantic Scholar, the second without [url], [year] and
    [abstract]; three from CrossRef, the first a respelling of a primary
    title. *)
Definition semantic_body : pyval :=
  PDict [("total", PInt 2);
         ("data",
          PList [PDict [("paperId", PStr "a1"); ("title", PStr "Effects of X");
                        ("url", PStr "https://www.semanticscholar.org/paper/a1");
                        ("year", PInt 2019); ("abstract", PStr "We study X.")];
                 PDict [("paperId", PStr "b2"); ("title", PStr "Sleep and memory")]])].

Definition crossref_body : pyval :=
  PDict [("status", PStr "ok");
         ("message",
          PDict [("items",
                  PList [PDict [("title", PList [PStr "EFFECTS OF X"]);
                                ("DOI", PStr "10.1000/x");
                                ("published",
                                 PDict [("date-parts", PList [PList [PInt 2020; PInt 5]])])];
                         PDict [("title", PList [PStr "Vaccines and autism"]);
                                ("DOI", PStr "10.1000/v")];
                         PDict [("title", PList [PStr "Measles outbreaks"]);
                                ("DOI", PStr "10.1000/m");
                                ("abstract", PStr "A survey.")]])])].

Definition semantic_example : list PaperRecord :=
  [{| title := PStr "Effects of X";
      url := PStr "https://www.semanticscholar.org/paper/a1";
      year := PInt 2019;
      abstract := PStr "We study X." |};
   {| title := PStr "Sleep and memory";
      url := PStr "https://www.semanticscholar.org/paper/b2";
      year := PStr "N/A";
      abstract := PStr "No abstract available" |}].

Definition crossref_example : list PaperRecord :=
  [{| title := PStr "EFFECTS OF X";
      url := PStr "https://doi.org/10.1000/x";
      year := PInt 2020;
      abstract := PStr "No abstract available" |};
   {| title := PStr "Vaccines and autism";
      url := PStr "https://doi.org/10.1000/v";
      year := PStr "N/A";
      abstract := PStr "No abstract available" |};
   {| title := PStr "Measles outbreaks";
      url := PStr "https://doi.org/10.1000/m";
      year := PStr "N/A";
      abstract := PStr "A survey." |}].

Definition example_world : world := serving semantic_body crossref_body (Some " A summary. ").

(** Semantic Scholar answers an item whose [year] is [null]. *)
Definition null_year_body : pyval :=
  PDict [("data",
          PList [PDict [("paperId", PStr "a1"); ("title", PStr "Effects of X");
                        ("url", PStr "https://www.semanticscholar.org/paper/a1");
                        ("year", PNone); ("abstract", PStr "We study X.")]])].

(** Semantic Scholar answers an item whose [abstract] is [null], after a
    complete one. *)
Definition null_abstract_body : pyval :=
  PDict [("data",
          PList [PDict [("paperId", PStr "a1"); ("title", PStr "Effects of X");
                        ("url", PStr "https://www.semanticscholar.org/paper/a1");
                        ("year", PInt 2019); ("abstract", PStr "We study X.")];
                 PDict [("paperId", PStr "b2"); ("title", PStr "Sleep and memory");
                        ("abstract", PNone)]])].

(** Semantic Scholar answers an item whose [title] is [null]. *)
Definition null_title_body : pyval :=
  PDict [("data",
          PList [PDict [("paperId", PStr "a1"); ("title", PNone);
                        ("abstract", PStr "We study X.")]])].

(** The abstract of a record is a [str] or a [list] of at most 500
    elements. *)
Definition abstract_bounded (r : PaperRecord) : Prop :=
  match abstract r with
  | PStr a => (String.length a <= 500)%nat
  | PList l => (length l <= 500)%nat
  | _ => False
  end.

(** The JSON body of a chat request. *)
Definition message_json (message : string) : pyval := PDict [("message", PStr message)].

(** A text generator that always answers. *)
Definition answering : world := serving PNone PNone (Some " Certainly. ").

(** A session in which fifteen messages were answered. *)
Definition fifteen_messages : list string :=
  ["m1"; "m2"; "m3"; "m4"; "m5"; "m6"; "m7"; "m8"; "m9"; "m10";
   "m11"; "m12"; "m13"; "m14"; "m15"].

Definition after_fifteen : state :=
  chat_all ascii_py answering (map message_json fifteen_messages) fresh.

(** CrossRef answers two items with distinct titles. *)
Definition two_items_body : pyval :=
  PDict [("message",
          PDict [("items",
                  PList [PDict [("title", PList [PStr "Vaccines and autism"]);
                                ("DOI", PStr "10.1000/v")];
                         PDict [("title", PList [PStr "Measles outbreaks"]);
                                ("DOI", PStr "10.1000/m")]])])].

(** ** The route [/verify] *)

(** The JSON body of the answer: an error with its [found] flag, or the
    [dict] of [verify_information]. *)
Inductive VerifyBody : Type :=
| VerifyError (error_text : string) (found_flag : bool)
| VerifyResult (r : VerificationResult).

(** The pair [(jsonify(...), status)] returned by the route. *)
Record VerifyResponse : Type := {
  verify_status : Z;
  verify_body : VerifyBody
}.

Section Routes.

Variable py : builtins.

(** The route [/verify].  [statement] is the field ['statement'] of the
    form, [None] when the form has no such field; form values are text. *)
Definition verify (w : world) (statement : option string) : M VerifyResponse :=
  try_except
    (let query := str_strip py (default "" statement) in
     let limit := 20 in
     if String.eqb query "" then
       ret {| verify_status := 400;
              verify_body := VerifyError "No query provided" false |}
     else
       r <- verify_information py w query limit ;;
       ret {| verify_status := 200; verify_body := VerifyResult r |})
    (fun _ =>
       ret {| verify_status := 500;
              verify_body := VerifyError "Internal server error" false |}).

End Routes.

(** ** Vocabulary of the further statements *)

(** The calls to the text-generation provider among [evs]. *)
Definition provider_calls (evs : list event) : list string :=
  omap (fun ev => match ev with
                  | GenerateContent prompt => Some prompt
                  | _ => None
                  end) evs.

(** The insertions into the query log requested among [evs]: the
    arguments of the calls to [save_query_to_db].  Whether the row was
    written is not part of the model: [save_query_to_db] swallows a failed
    [INSERT]. *)
Definition log_requests (evs : list event) : list (string * Z * string) :=
  omap (fun ev => match ev with
                  | DbInsert q n c => Some (q, n, c)
                  | _ => None
                  end) evs.

(** A value that [[:500]] accepts. *)
Definition sliceable (v : pyval) : bool :=
  match v with
  | PStr _ | PList _ => true
  | _ => false
  end.

(** The items the Semantic Scholar adapter loops over, when the answer has
    them: the body of a 200 response, its key ['data'], iterated. *)
Definition semantic_scholar_items (w : world) (query : string) (limit : Z)
    : option (list pyval) :=
  match requests_get w "https://api.semanticscholar.org/graph/v1/paper/search"
          [("query", PStr query); ("limit", PInt limit);
           ("fields", PStr "title,url,year,abstract,paperId")]
          [("User-Agent", "Information-Authenticator/1.0")] with
  | Some response =>
      if status_code response =? 200 then
        match json_body response with
        | Some data =>
            match (items <-? py_getitem data "data" ;; py_iter items) with
            | Ok items => Some items
            | Raise _ => None
            end
        | None => None
        end
      else None
  | None => None
  end.

(** The same for CrossRef: [data['message']['items']], iterated. *)
Definition crossref_items (w : world) (query : string) (limit : Z)
    : option (list pyval) :=
  match requests_get w "https://api.crossref.org/works"
          [("query", PStr query); ("rows", PInt limit);
           ("select", PStr "title,DOI,published,abstract")]
          [("User-Agent", "Information-Authenticator/1.0 (mailto:user@example.com)")] with
  | Some response =>
      if status_code response =? 200 then
        match json_body response with
        | Some data =>
            match (message <-? py_getitem data "message" ;;
                   items <-? py_getitem message "items" ;;
                   py_iter items) with
            | Ok items => Some items
            | Raise _ => None
            end
        | None => None
        end
      else None
  | None => None
  end.

(** The quota [int(limit * 0.7)] is computed without error, is 70% rounded
    down or one less, leaves at least one result to the secondary adapter and
    is zero only at the limit 1. *)
Definition quota_in_range (limit : Z) : bool :=
  match int_mul_0_7 limit with
  | Ok v => ((v =? seventy_percent limit) || (v =? seventy_percent limit - 1))
            && (0 <=? v) && (v <? limit) && ((0 <? v) || (limit =? 1))
  | Raise _ => false
  end.

(** [f] holds on the [count] integers from [start] on. *)
Fixpoint all_from (f : Z -> bool) (start : Z) (count : nat) : bool :=
  match count with
  | O => true
  | S count' => f start && all_from f (start + 1) count'
  end.

(** ** Confidence calculation: the table of thresholds *)

(** C2: on every non-negative result count [calculate_confidence] gives
    exactly one of the four labels: "Not supported" exactly at 0,
    "Weak Evidence" exactly on 1..3, "Moderate Evidence" exactly on 4..9 and
    "Strong Evidence" exactly from 10 on.  The function is a total function
    of its argument alone, so it is deterministic and has no failure mode. *)
Theorem calculate_confidence_table (n : Z) :
  0 <= n ->
  (calculate_confidence n = "Not supported" <-> n = 0) /\
  (calculate_confidence n = "Weak Evidence" <-> 1 <= n <= 3) /\
  (calculate_confidence n = "Moderate Evidence" <-> 4 <= n <= 9) /\
  (calculate_confidence n = "Strong Evidence" <-> 10 <= n).
Proof.
  intros Hn. unfold calculate_confidence.
  destruct (Z.eqb_spec n 0) as [-> | Hz].
  { repeat split; intros; try lia; try discriminate. }
  destruct (Z.leb_spec 1 n), (Z.leb_spec n 3); simpl.
  { repeat split; intros; try lia; try discriminate. }
  all: destruct (Z.leb_spec 4 n), (Z.leb_spec n 9); simpl.
  all: repeat split; intros; try lia; try discriminate.
Qed.

Lemma calculate_confidence_table_witness :
  (calculate_confidence 5 = "Not supported" <-> 5 = 0) /\
  (calculate_confidence 5 = "Weak Evidence" <-> 1 <= 5 <= 3) /\
  (calculate_confidence 5 = "Moderate Evidence" <-> 4 <= 5 <= 9) /\
  (calculate_confidence 5 = "Strong Evidence" <-> 10 <= 5).
Proof. apply (calculate_confidence_table 5). lia. Defined.

(** C10: on every negative integer [calculate_confidence] falls through to
    the last branch and answers "Strong Evidence". *)
Theorem calculate_confidence_negative (n : Z) :
  n < 0 -> calculate_confidence n = "Strong Evidence".
Proof.
  intros Hn. unfold calculate_confidence.
  destruct (Z.eqb_spec n 0); [lia |].
  destruct (Z.leb_spec 1 n); [lia |]. simpl.
  destruct (Z.leb_spec 4 n); [lia |]. reflexivity.
Qed.

Lemma calculate_confidence_negative_witness :
  calculate_confidence (-1) = "Strong Evidence".
Proof. apply (calculate_confidence_negative (-1)). lia. Defined.

(** X1: on non-negative counts the label never goes down when the count
    goes up, in the order "Not supported", "Weak Evidence",
    "Moderate Evidence", "Strong Evidence". *)
Lemma calculate_confidence_monotone (m n : Z) :
  0 <= m <= n ->
  label_rank (calculate_confidence m) <= label_rank (calculate_confidence n).
Proof.
  intros H. unfold calculate_confidence.
  destruct (Z.eqb_spec m 0), (Z.eqb_spec n 0); try lia;
  destruct (Z.leb_spec 1 m), (Z.leb_spec m 3), (Z.leb_spec 1 n), (Z.leb_spec n 3);
  destruct (Z.leb_spec 4 m), (Z.leb_spec m 9), (Z.leb_spec 4 n), (Z.leb_spec n 9);
  simpl; try lia; vm_compute; congruence.
Qed.

(** ** Running the monad *)

Ltac run_M :=
  cbv [try_except bind ret lift emit http_get response_json gemini
       get_chat_history set_chat_history session_chat_history save_query_to_db].

(** Each adapter sends exactly one request and never raises. *)
Lemma search_semantic_scholar_run py w query limit s :
  exists papers,
    search_semantic_scholar py w query limit s
    = (Ok papers, add_call s (semantic_scholar_request query limit)).
Proof.
  unfold search_semantic_scholar, add_call, semantic_scholar_request. run_M.
  destruct (requests_get w _ _ _) as [response |]; [| eauto].
  destruct (status_code response =? 200); [| eauto].
  destruct (json_body response) as [data |]; [| eauto].
  destruct (py_in "data" data) as [[|] | e]; eauto.
  destruct (rbind _ _); eauto.
Qed.

Lemma search_crossref_run py w query limit s :
  exists papers,
    search_crossref py w query limit s
    = (Ok papers, add_call s (crossref_request query limit)).
Proof.
  unfold search_crossref, add_call, crossref_request. run_M.
  destruct (requests_get w _ _ _) as [response |]; [| eauto].
  destruct (status_code response =? 200); [| eauto].
  destruct (json_body response) as [data |]; [| eauto].
  destruct (rbind (py_in "message" data) _) as [[|] | e]; eauto.
  destruct (rbind _ _); eauto.
Qed.

(** ** The summary generator *)

Lemma generate_summary_run py w papers s :
  generate_summary py w papers s
  = match papers with
    | [] => (Ok "No papers available to summarize.", s)
    | _ :: _ =>
        let prompt := summary_prompt (fold_left (summary_entry py) papers "") in
        (Ok match generate_content w prompt with
            | Some text => str_strip py text
            | None => "AI summary unavailable due to Gemini API error."
            end,
         add_call s (GenerateContent prompt))
    end.
Proof.
  destruct papers as [| p papers]; [reflexivity |].
  unfold generate_summary, add_call. run_M.
  destruct (generate_content w _); reflexivity.
Qed.

(** C5: [generate_summary] never raises.  On an empty list it returns the
    fixed message and calls nobody; on a non-empty list it calls the
    text-generation provider once and, when that call fails, returns the
    fixed fallback string. *)
Theorem generate_summary_never_raises py w papers s :
  exists text s',
    generate_summary py w papers s = (Ok text, s') /\
    match papers with
    | [] => text = "No papers available to summarize." /\ s' = s
    | _ :: _ =>
        let prompt := summary_prompt (fold_left (summary_entry py) papers "") in
        calls s' = (calls s ++ [GenerateContent prompt])%list /\
        text = match generate_content w prompt with
               | Some answer => str_strip py answer
               | None => "AI summary unavailable due to Gemini API error."
               end
    end.
Proof.
  rewrite generate_summary_run.
  destruct papers as [| p papers]; eexists _, _; (split; [reflexivity |]).
  - split; reflexivity.
  - split; reflexivity.
Qed.

(** The summary fallback on a failing provider, on a run. *)
Example generate_summary_offline :
  generate_summary ascii_py offline [paper "Effects of X" "semantic"] fresh
  = (Ok "AI summary unavailable due to Gemini API error.",
     add_call fresh
       (GenerateContent
          (summary_prompt
             (paper_text ascii_py (paper "Effects of X" "semantic"))))).
Proof. reflexivity. Qed.

(** ** Combining the two result lists *)

Section Combine.

Variable py : builtins.

Lemma lower_title_text p :
  text_title p = true -> exists t, lower_title py p = Ok t.
Proof. unfold text_title, lower_title. destruct (title p); try discriminate. eauto. Qed.

Lemma lower_title_not_text p :
  text_title p = false -> lower_title py p = Raise AttributeError.
Proof. unfold text_title, lower_title. destruct (title p); try discriminate; reflexivity. Qed.

Lemma has_key_iff t p : has_key py t p = true <-> lower_title py p = Ok t.
Proof.
  unfold has_key. destruct (lower_title py p) as [t' | e].
  - rewrite String.eqb_eq. split; congruence.
  - split; discriminate.
Qed.

(** The comprehension that builds [existing_titles]. *)
Lemma rmap_lower_title primary :
  if forallb text_title primary
  then exists titles,
         rmap (lower_title py) primary = Ok titles /\
         forall t, t ∈ titles <-> existsb (has_key py t) primary = true
  else rmap (lower_title py) primary = Raise AttributeError.
Proof.
  induction primary as [| p primary IH]; simpl.
  - exists []. split; [reflexivity |]. intros t. split; [inversion 1 | discriminate].
  - destruct (text_title p) eqn:Hp; simpl.
    + destruct (lower_title_text p Hp) as [t0 Ht0]. rewrite Ht0. simpl.
      destruct (forallb text_title primary).
      * destruct IH as (titles & -> & Hin). simpl. exists (t0 :: titles).
        split; [reflexivity |]. intros t.
        rewrite elem_of_cons, orb_true_iff, has_key_iff, Hin, Ht0.
        split; (intros [H | H]; [left; congruence | right; exact H]).
      * rewrite IH. reflexivity.
    + rewrite (lower_title_not_text p Hp). reflexivity.
Qed.

(** The loop over [crossref_papers] keeps, in order, the results whose
    title is not in the set built from the primary results. *)
Lemma rfold_add_if_new (existing_titles : gset string) primary secondary :
  (forall t, t ∈ existing_titles <-> existsb (has_key py t) primary = true) ->
  forall all_papers,
    rfold (add_if_new py existing_titles) secondary all_papers
    = if forallb text_title secondary
      then Ok (all_papers ++ kept_crossref py primary secondary)%list
      else Raise AttributeError.
Proof.
  intros Hset. induction secondary as [| c secondary IH]; intros all_papers; simpl.
  - rewrite app_nil_r. reflexivity.
  - unfold add_if_new at 1. unfold is_new.
    destruct (text_title c) eqn:Hc; simpl.
    + destruct (lower_title_text c Hc) as [t Ht]. rewrite Ht. simpl.
      rewrite IH. destruct (forallb text_title secondary); [| reflexivity].
      specialize (Hset t). destruct (existsb (has_key py t) primary) eqn:Hex; simpl.
      * rewrite bool_decide_eq_false_2; [reflexivity |]. intros Hn. apply Hn, Hset. reflexivity.
      * rewrite bool_decide_eq_true_2; [by rewrite <- app_assoc |].
        intros Hin. apply Hset in Hin. discriminate.
    + rewrite (lower_title_not_text c Hc). reflexivity.
Qed.

(** The combination in closed form: it raises exactly when some title is
    not text, and otherwise returns the primary results followed by the
    secondary results with a new title, cut at [limit]. *)
Lemma combine_papers_eq primary secondary limit :
  combine_papers py primary secondary limit
  = if forallb text_title (primary ++ secondary)
    then Ok (list_slice_to (primary ++ kept_crossref py primary secondary) limit)
    else Raise AttributeError.
Proof.
  unfold combine_papers. rewrite forallb_app.
  pose proof (rmap_lower_title primary) as Hmap.
  destruct (forallb text_title primary); simpl.
  - destruct Hmap as (titles & -> & Hin). simpl.
    rewrite (rfold_add_if_new _ primary).
    + destruct (forallb text_title secondary); reflexivity.
    + intros t. rewrite elem_of_list_to_set. apply Hin.
  - rewrite Hmap. reflexivity.
Qed.

Lemma combine_papers_nil limit : combine_papers py [] [] limit = Ok [].
Proof. rewrite combine_papers_eq. unfold list_slice_to. simpl. by destruct (0 <=? limit); rewrite take_nil. Qed.

Lemma length_list_slice_to {A} (l : list A) limit :
  0 <= limit -> Z.of_nat (length (list_slice_to l limit)) <= limit.
Proof.
  intros H. unfold list_slice_to. destruct (Z.leb_spec 0 limit); [| lia].
  rewrite length_take. lia.
Qed.

(** No kept secondary result carries the title of a primary result. *)
Lemma kept_crossref_no_primary_title primary secondary t :
  existsb (has_key py t) primary = true ->
  List.filter (has_key py t) (kept_crossref py primary secondary) = [].
Proof.
  intros Hex. unfold kept_crossref.
  induction secondary as [| c secondary IH]; simpl; [reflexivity |].
  destruct (is_new py primary c) eqn:Hnew; [| exact IH]. simpl.
  destruct (has_key py t c) eqn:Hk; [| exact IH]. exfalso.
  apply has_key_iff in Hk. unfold is_new in Hnew. rewrite Hk, Hex in Hnew. discriminate.
Qed.

Lemma filter_take_nil {A} (f : A -> bool) (l : list A) n :
  List.filter f l = [] -> List.filter f (take n l) = [].
Proof.
  revert n. induction l as [| x l IH]; intros [| n] H; simpl in *; try reflexivity.
  destruct (f x); [discriminate |]. apply IH, H.
Qed.

Lemma filter_slice_app {A} (f : A -> bool) (l k : list A) limit :
  0 <= limit ->
  List.filter f k = [] ->
  List.filter f (list_slice_to (l ++ k) limit) = List.filter f (list_slice_to l limit).
Proof.
  intros Hl Hk. unfold list_slice_to. destruct (Z.leb_spec 0 limit); [| lia].
  rewrite take_app, List.filter_app, (filter_take_nil f k _ Hk). apply app_nil_r.
Qed.

Lemma title_count_positive t (l : list PaperRecord) :
  (0 < title_count py t l)%nat -> existsb (has_key py t) l = true.
Proof.
  unfold title_count. induction l as [| p l IH]; simpl; [lia |].
  destruct (has_key py t p); [reflexivity |]. exact IH.
Qed.

End Combine.

(** ** Deduplication *)

(** C1, as amended: whenever the combination returns, a secondary result is
    kept only if its lowered title is the lowered title of no primary
    result (the set of titles is built once, from the primary results), so
    for every title that primary returned, the entries of the combined result
    with that title are exactly primary's entries with that title among its
    first [limit] results: exactly one when primary returned that title once
    and no more than [limit] results. *)
Theorem combine_papers_primary_wins py primary secondary limit r :
  0 < limit ->
  combine_papers py primary secondary limit = Ok r ->
  r = take (Z.to_nat limit) (primary ++ kept_crossref py primary secondary) /\
  (forall c, In c (kept_crossref py primary secondary)
             <-> In c secondary /\ is_new py primary c = true) /\
  (forall t, existsb (has_key py t) primary = true ->
             List.filter (has_key py t) r
             = List.filter (has_key py t) (take (Z.to_nat limit) primary)) /\
  (forall t, title_count py t primary = 1%nat ->
             Z.of_nat (length primary) <= limit ->
             title_count py t r = 1%nat).
Proof.
  intros Hlimit Hr. rewrite combine_papers_eq in Hr.
  destruct (forallb text_title (primary ++ secondary)); [| discriminate].
  injection Hr as <-.
  assert (Hfilter : forall t, existsb (has_key py t) primary = true ->
            List.filter (has_key py t)
              (list_slice_to (primary ++ kept_crossref py primary secondary) limit)
            = List.filter (has_key py t) (list_slice_to primary limit)).
  { intros t Ht. apply filter_slice_app; [lia |].
    apply kept_crossref_no_primary_title, Ht. }
  assert (Hslice : forall l : list PaperRecord,
            list_slice_to l limit = take (Z.to_nat limit) l).
  { intros l. unfold list_slice_to. destruct (Z.leb_spec 0 limit); [reflexivity | lia]. }
  rewrite Hslice. split; [reflexivity |]. split; [| split].
  - intros c. unfold kept_crossref. apply List.filter_In.
  - intros t Ht. rewrite <- !Hslice. apply Hfilter, Ht.
  - intros t Hone Hlen.
    assert (Hex : existsb (has_key py t) primary = true)
      by (apply title_count_positive; lia).
    unfold title_count in *.
    rewrite <- Hslice, (Hfilter t Hex), Hslice, take_ge by lia. exact Hone.
Qed.

Lemma combine_papers_primary_wins_witness :
  let r := [paper "Effects of X" "semantic"; paper "Sleep and memory" "crossref"] in
  r = take (Z.to_nat 20)
        ([paper "Effects of X" "semantic"]
         ++ kept_crossref ascii_py [paper "Effects of X" "semantic"]
              [paper "EFFECTS OF X" "crossref"; paper "Sleep and memory" "crossref"]) /\
  (forall c, In c (kept_crossref ascii_py [paper "Effects of X" "semantic"]
                     [paper "EFFECTS OF X" "crossref"; paper "Sleep and memory" "crossref"])
             <-> In c [paper "EFFECTS OF X" "crossref"; paper "Sleep and memory" "crossref"]
                 /\ is_new ascii_py [paper "Effects of X" "semantic"] c = true) /\
  (forall t, existsb (has_key ascii_py t) [paper "Effects of X" "semantic"] = true ->
             List.filter (has_key ascii_py t) r
             = List.filter (has_key ascii_py t)
                 (take (Z.to_nat 20) [paper "Effects of X" "semantic"])) /\
  (forall t, title_count ascii_py t [paper "Effects of X" "semantic"] = 1%nat ->
             Z.of_nat (length [paper "Effects of X" "semantic"]) <= 20 ->
             title_count ascii_py t r = 1%nat).
Proof.
  apply (combine_papers_primary_wins ascii_py
           [paper "Effects of X" "semantic"]
           [paper "EFFECTS OF X" "crossref"; paper "Sleep and memory" "crossref"] 20).
  - lia.
  - vm_compute. reflexivity.
Defined.

(** C1, as stated, fails on [primary_dup] and [secondary_dup]: the code
    appends both spellings of the second title, where the set of
    already-included titles of the specification would stop the second one,
    and the title that both providers returned has two entries, not one. *)
Lemma combine_papers_not_as_specified :
  ~ appended_only_if_not_included ascii_py primary_dup secondary_dup 20 /\
  ~ one_entry_per_shared_title ascii_py primary_dup secondary_dup 20.
Proof.
  split.
  - unfold appended_only_if_not_included. vm_compute. discriminate.
  - intros H.
    specialize (H (primary_dup
                   ++ [paper "Sleep and memory" "crossref";
                       paper "SLEEP AND MEMORY" "crossref"])%list
                  "effects of x").
    assert (Hrun : combine_papers ascii_py primary_dup secondary_dup 20
                   = Ok (primary_dup
                         ++ [paper "Sleep and memory" "crossref";
                             paper "SLEEP AND MEMORY" "crossref"])%list)
      by (vm_compute; reflexivity).
    specialize (H Hrun eq_refl eq_refl). vm_compute in H. discriminate.
Qed.

(** What the two merges give on that input. *)
Example combine_papers_on_duplicates :
  combine_papers ascii_py primary_dup secondary_dup 20
  = Ok [paper "Effects of X" "semantic"; paper "EFFECTS OF X" "semantic";
        paper "Sleep and memory" "crossref"; paper "SLEEP AND MEMORY" "crossref"]
  /\ spec_combine_papers ascii_py primary_dup secondary_dup 20
     = Ok [paper "Effects of X" "semantic"; paper "EFFECTS OF X" "semantic";
           paper "Sleep and memory" "crossref"].
Proof. split; vm_compute; reflexivity. Qed.

(** ** The verification logic *)

(** [verify_information] in closed form, given the quota and what the two
    adapters returned. *)
Lemma verify_information_run py w query limit s semantic_limit
    semantic_papers crossref_papers s1 s2 :
  int_mul_0_7 limit = Ok semantic_limit ->
  search_semantic_scholar py w query semantic_limit s = (Ok semantic_papers, s1) ->
  search_crossref py w query (limit - semantic_limit) s1 = (Ok crossref_papers, s2) ->
  verify_information py w query limit s
  = match combine_papers py semantic_papers crossref_papers limit with
    | Raise e => (Raise e, s2)
    | Ok all_papers =>
        let count := Z.of_nat (length all_papers) in
        let confidence_ := calculate_confidence count in
        let s3 := add_call s2 (DbInsert query count confidence_) in
        match all_papers with
        | [] =>
            (Ok {| found := false;
                   confidence := "Not supported";
                   result_count := 0;
                   summary := "No research papers found to generate a summary.";
                   results := [] |}, s3)
        | _ :: _ =>
            let prompt := summary_prompt (fold_left (summary_entry py) all_papers "") in
            (Ok {| found := true;
                   confidence := confidence_;
                   result_count := count;
                   summary := match generate_content w prompt with
                              | Some text => str_strip py text
                              | None => "AI summary unavailable due to Gemini API error."
                              end;
                   results := all_papers |},
             add_call s3 (GenerateContent prompt))
        end
    end.
Proof.
  intros Hquota Hsemantic Hcrossref.
  unfold verify_information, bind, lift. rewrite Hquota, Hsemantic, Hcrossref.
  destruct (combine_papers py semantic_papers crossref_papers limit)
    as [all_papers | e]; [| reflexivity].
  unfold save_query_to_db, emit. fold (add_call s2
    (DbInsert query (Z.of_nat (length all_papers))
       (calculate_confidence (Z.of_nat (length all_papers))))).
  rewrite generate_summary_run.
  destruct all_papers as [| p all_papers]; [reflexivity |].
  cbv zeta. unfold ret.
  replace (0 <? Z.of_nat (length (p :: all_papers))) with true; [reflexivity |].
  symmetry. apply Z.ltb_lt. simpl length. lia.
Qed.

(** C3: when the combined list is empty, [verify_information] returns
    normally with [found] false, the label "Not supported", a count of 0, the
    fixed summary and no results; the only calls it made are the two search
    requests and the insertion into the query log, so the text-generation
    provider was not called. *)
Theorem verify_information_no_papers py w query limit s semantic_limit
    semantic_papers crossref_papers s1 s2 :
  int_mul_0_7 limit = Ok semantic_limit ->
  search_semantic_scholar py w query semantic_limit s = (Ok semantic_papers, s1) ->
  search_crossref py w query (limit - semantic_limit) s1 = (Ok crossref_papers, s2) ->
  combine_papers py semantic_papers crossref_papers limit = Ok [] ->
  verify_information py w query limit s
  = (Ok {| found := false;
           confidence := "Not supported";
           result_count := 0;
           summary := "No research papers found to generate a summary.";
           results := [] |},
     {| calls := (calls s ++ [semantic_scholar_request query semantic_limit;
                              crossref_request query (limit - semantic_limit);
                              DbInsert query 0 "Not supported"])%list;
        chat_history := chat_history s |}).
Proof.
  intros Hquota Hsemantic Hcrossref Hempty.
  rewrite (verify_information_run _ _ _ _ _ _ _ _ _ _ Hquota Hsemantic Hcrossref), Hempty.
  destruct (search_semantic_scholar_run py w query semantic_limit s) as [ps Hs].
  destruct (search_crossref_run py w query (limit - semantic_limit) s1) as [pc Hc].
  rewrite Hs in Hsemantic. rewrite Hc in Hcrossref.
  injection Hsemantic as _ <-. injection Hcrossref as _ <-.
  cbv zeta. unfold add_call. simpl calls. simpl chat_history.
  rewrite <- !app_assoc. reflexivity.
Qed.

Lemma verify_information_no_papers_witness :
  verify_information ascii_py offline "vaccines cause autism" 20 fresh
  = (Ok {| found := false;
           confidence := "Not supported";
           result_count := 0;
           summary := "No research papers found to generate a summary.";
           results := [] |},
     {| calls := (calls fresh
                  ++ [semantic_scholar_request "vaccines cause autism" 14;
                      crossref_request "vaccines cause autism" (20 - 14);
                      DbInsert "vaccines cause autism" 0 "Not supported"])%list;
        chat_history := chat_history fresh |}).
Proof.
  apply (verify_information_no_papers ascii_py offline "vaccines cause autism" 20 fresh 14
           [] []
           (add_call fresh (semantic_scholar_request "vaccines cause autism" 14))
           (add_call (add_call fresh (semantic_scholar_request "vaccines cause autism" 14))
              (crossref_request "vaccines cause autism" (20 - 14)))).
  - vm_compute. reflexivity.
  - reflexivity.
  - reflexivity.
  - vm_compute. reflexivity.
Defined.

(** C4: for a positive [limit], whatever the adapters returned,
    [verify_information] either returns the primary results followed by the
    kept secondary results, cut after [limit] entries (so at most [limit]
    results, the primary ones first and in the provider's order, counted by
    [result_count]), or raises [AttributeError]; it raises exactly when some
    returned title is not text. *)
Theorem verify_information_at_most_limit py w query limit s semantic_limit
    semantic_papers crossref_papers s1 s2 :
  0 < limit ->
  int_mul_0_7 limit = Ok semantic_limit ->
  search_semantic_scholar py w query semantic_limit s = (Ok semantic_papers, s1) ->
  search_crossref py w query (limit - semantic_limit) s1 = (Ok crossref_papers, s2) ->
  match verify_information py w query limit s with
  | (Ok r, _) =>
      forallb text_title (semantic_papers ++ crossref_papers) = true /\
      results r = take (Z.to_nat limit)
                    (semantic_papers
                     ++ kept_crossref py semantic_papers crossref_papers) /\
      take (length semantic_papers) (results r) = take (Z.to_nat limit) semantic_papers /\
      Z.of_nat (length (results r)) <= limit /\
      result_count r = Z.of_nat (length (results r))
  | (Raise e, _) =>
      e = AttributeError /\
      forallb text_title (semantic_papers ++ crossref_papers) = false
  end.
Proof.
  intros Hlimit Hquota Hsemantic Hcrossref.
  rewrite (verify_information_run _ _ _ _ _ _ _ _ _ _ Hquota Hsemantic Hcrossref).
  rewrite combine_papers_eq.
  destruct (forallb text_title (semantic_papers ++ crossref_papers)); [| by split].
  assert (Hslice : list_slice_to
                     (semantic_papers ++ kept_crossref py semantic_papers crossref_papers)
                     limit
                   = take (Z.to_nat limit)
                       (semantic_papers
                        ++ kept_crossref py semantic_papers crossref_papers)).
  { unfold list_slice_to. destruct (Z.leb_spec 0 limit); [reflexivity | lia]. }
  assert (Hprimary : take (length semantic_papers)
                       (take (Z.to_nat limit)
                          (semantic_papers
                           ++ kept_crossref py semantic_papers crossref_papers))
                     = take (Z.to_nat limit) semantic_papers).
  { rewrite take_take, take_app_le by lia.
    destruct (Nat.le_ge_cases (Z.to_nat limit) (length semantic_papers)) as [Hle | Hge].
    - by rewrite Nat.min_r.
    - rewrite Nat.min_l, !take_ge by lia. reflexivity. }
  rewrite Hslice.
  assert (Hlength : Z.of_nat
                      (length
                         (take (Z.to_nat limit)
                            (semantic_papers
                             ++ kept_crossref py semantic_papers crossref_papers)))
                    <= limit)
    by (rewrite length_take; lia).
  revert Hprimary Hlength.
  generalize (take (Z.to_nat limit)
                (semantic_papers ++ kept_crossref py semantic_papers crossref_papers)).
  intros all_papers Hprimary Hlength.
  destruct all_papers as [| p all_papers]; cbv zeta; cbn [results result_count].
  - repeat split; try lia. rewrite <- Hprimary. by destruct (length semantic_papers).
  - repeat split; assumption.
Qed.

Lemma verify_information_at_most_limit_witness :
  match verify_information ascii_py example_world "effects of x" 3 fresh with
  | (Ok r, _) =>
      forallb text_title (semantic_example ++ crossref_example) = true /\
      results r = take (Z.to_nat 3)
                    (semantic_example
                     ++ kept_crossref ascii_py semantic_example crossref_example) /\
      take (length semantic_example) (results r) = take (Z.to_nat 3) semantic_example /\
      Z.of_nat (length (results r)) <= 3 /\
      result_count r = Z.of_nat (length (results r))
  | (Raise e, _) =>
      e = AttributeError /\
      forallb text_title (semantic_example ++ crossref_example) = false
  end.
Proof.
  apply (verify_information_at_most_limit ascii_py example_world "effects of x" 3 fresh 2
           semantic_example crossref_example
           (add_call fresh (semantic_scholar_request "effects of x" 2))
           (add_call (add_call fresh (semantic_scholar_request "effects of x" 2))
              (crossref_request "effects of x" (3 - 2)))).
  - lia.
  - vm_compute. reflexivity.
  - reflexivity.
  - reflexivity.
Defined.

(** The run on the example world: two primary results, then the first new
    secondary result; the respelled title is dropped and the last result is
    cut by the limit. *)
Example verify_information_example :
  fst (verify_information ascii_py example_world "effects of x" 3 fresh)
  = Ok {| found := true;
          confidence := "Weak Evidence";
          result_count := 3;
          summary := "A summary.";
          results := semantic_example
                     ++ [{| title := PStr "Vaccines and autism";
                            url := PStr "https://doi.org/10.1000/v";
                            year := PStr "N/A";
                            abstract := PStr "No abstract available" |}] |}.
Proof. vm_compute. reflexivity. Qed.

(** ** The quota split *)

(** The constant [float_0_7] is the double nearest to 7/10: it is what
    [7.0 / 10.0] rounds to, and its distance to 7/10 is below half a unit in
    the last place. *)
Lemma float_0_7_nearest :
  SFdiv prec emax (S754_finite false 7 0) (S754_finite false 10 0) = float_0_7 /\
  Z.abs (10 * 6305039478318694 - 7 * 2 ^ 53) <= 5.
Proof. split; vm_compute; [reflexivity | discriminate]. Qed.

(** The requests [verify_information] sends carry the quotas
    [int(limit * 0.7)] and the remainder. *)
Lemma verify_information_requests py w query limit s semantic_limit :
  int_mul_0_7 limit = Ok semantic_limit ->
  exists r s' rest,
    verify_information py w query limit s = (r, s') /\
    calls s' = (calls s ++ semantic_scholar_request query semantic_limit
                        :: crossref_request query (limit - semantic_limit)
                        :: rest)%list.
Proof.
  intros Hquota.
  destruct (search_semantic_scholar_run py w query semantic_limit s) as [ps Hs].
  destruct (search_crossref_run py w query (limit - semantic_limit)
              (add_call s (semantic_scholar_request query semantic_limit))) as [pc Hc].
  rewrite (verify_information_run _ _ _ _ _ _ _ _ _ _ Hquota Hs Hc).
  destruct (combine_papers py ps pc limit) as [[| p all_papers] | e]; cbv zeta;
    eexists _, _, _; (split; [reflexivity |]); unfold add_call; simpl calls;
    rewrite <- ?app_assoc; simpl; reflexivity.
Qed.

(** Below 90 the computed quota is 70% rounded down. *)
Lemma int_mul_0_7_below_90 (limit : Z) :
  0 <= limit < 90 -> int_mul_0_7 limit = Ok (seventy_percent limit).
Proof.
  intros Hlimit.
  assert (Hall : forallb (fun n => match int_mul_0_7 (Z.of_nat n) with
                                   | Ok v => v =? seventy_percent (Z.of_nat n)
                                   | Raise _ => false
                                   end) (seq 0 90) = true)
    by (vm_compute; reflexivity).
  rewrite forallb_forall in Hall. specialize (Hall (Z.to_nat limit)).
  rewrite Z2Nat.id in Hall by lia.
  destruct (int_mul_0_7 limit) as [v | e].
  - f_equal. apply Z.eqb_eq, Hall, in_seq. lia.
  - discriminate Hall. apply in_seq. lia.
Qed.

(** The split of the only limit the route [/verify] passes. *)
Lemma quota_split_20 py w query s :
  int_mul_0_7 20 = Ok 14 /\
  exists r s' rest,
    verify_information py w query 20 s = (r, s') /\
    calls s' = (calls s ++ semantic_scholar_request query 14
                        :: crossref_request query 6 :: rest)%list.
Proof.
  assert (Hquota : int_mul_0_7 20 = Ok 14) by (vm_compute; reflexivity).
  split; [exact Hquota |].
  exact (verify_information_requests py w query 20 s 14 Hquota).
Qed.

(** C8, at the limit 90: 70% rounded down is 63, and [int(90 * 0.7)] is 62,
    because the double 0.7 lies below 7/10 and the product rounds to the
    double just under 63.  [verify_information] asks the primary adapter for
    62 results and the secondary adapter for 28. *)
Theorem quota_split_90 py w query s :
  seventy_percent 90 = 63 /\
  (x <-? float_of_int 90 ;; Ok (SFmul prec emax x float_0_7))
  = Ok (S754_finite false (63 * 2 ^ 47 - 1) (-47)) /\
  int_mul_0_7 90 = Ok 62 /\
  exists r s' rest,
    verify_information py w query 90 s = (r, s') /\
    calls s' = (calls s ++ semantic_scholar_request query 62
                        :: crossref_request query 28 :: rest)%list.
Proof.
  assert (Hquota : int_mul_0_7 90 = Ok 62) by (vm_compute; reflexivity).
  split; [reflexivity |]. split; [vm_compute; reflexivity |].
  split; [exact Hquota |].
  exact (verify_information_requests py w query 90 s 62 Hquota).
Qed.

(** ** The adapters' records *)

Lemma length_string_take n s : (String.length (string_take n s) <= n)%nat.
Proof.
  revert s. induction n as [| n IH]; intros [| a s]; simpl; try lia.
  specialize (IH s). lia.
Qed.

Lemma py_slice_to_bounded v n v' :
  py_slice_to v n = Ok v' ->
  match v' with
  | PStr a => (String.length a <= n)%nat
  | PList l => (length l <= n)%nat
  | _ => False
  end.
Proof.
  destruct v; try discriminate; intros [= <-].
  - apply length_string_take.
  - rewrite length_take. lia.
Qed.

Lemma rmap_Forall {A B} (f : A -> result B) (P : B -> Prop) l ys :
  (forall x y, f x = Ok y -> P y) -> rmap f l = Ok ys -> Forall P ys.
Proof.
  intros Hf. revert ys. induction l as [| x l IH]; simpl; intros ys H.
  - injection H as <-. constructor.
  - destruct (f x) as [y |] eqn:Hx; [| discriminate]. simpl in H.
    destruct (rmap f l) as [ys' |]; [| discriminate]. injection H as <-.
    constructor; [eapply Hf, Hx | by apply IH].
Qed.

(** The abstract of every record is cut to 500 characters, for both
    adapters. *)
Lemma semantic_scholar_record_abstract py item r :
  semantic_scholar_record py item = Ok r -> abstract_bounded r.
Proof.
  unfold semantic_scholar_record, abstract_bounded.
  destruct (py_get item "title" _) as [title_ |]; [| discriminate].
  cbn [rbind]. destruct (py_get item "paperId" _) as [paper_id |]; [| discriminate].
  cbn [rbind]. destruct (py_get item "url" _) as [url_ |]; [| discriminate].
  cbn [rbind]. destruct (py_get item "year" _) as [year_ |]; [| discriminate].
  cbn [rbind]. destruct (py_get item "abstract" _) as [abstract_ |]; [| discriminate].
  cbn [rbind].
  destruct (py_slice_to _ 500) as [a |] eqn:Ha; [| discriminate].
  intros [= <-]. cbn [abstract]. eapply py_slice_to_bounded, Ha.
Qed.

Lemma crossref_record_abstract py item r :
  crossref_record py item = Ok r ->
  abstract_bounded r /\ exists u, url r = PStr u.
Proof.
  unfold crossref_record, abstract_bounded.
  destruct (py_in "published" item) as [has_published |]; [| discriminate].
  cbn [rbind].
  match goal with
  | |- rbind ?year_result _ = _ -> _ => destruct year_result as [year_ |]; [| discriminate]
  end.
  cbn [rbind]. destruct (py_get item "title" _) as [titles |]; [| discriminate].
  cbn [rbind]. destruct (py_getitem0 titles) as [title_ |]; [| discriminate].
  cbn [rbind]. destruct (py_get item "DOI" _) as [doi |]; [| discriminate].
  cbn [rbind]. destruct (py_get item "abstract" _) as [abstract_ |]; [| discriminate].
  cbn [rbind].
  destruct (py_slice_to _ 500) as [a |] eqn:Ha; [| discriminate].
  intros [= <-]. cbn [abstract url]. split; [eapply py_slice_to_bounded, Ha | eauto].
Qed.

Lemma search_semantic_scholar_abstracts py w query limit s papers s' :
  search_semantic_scholar py w query limit s = (Ok papers, s') ->
  Forall abstract_bounded papers.
Proof.
  unfold search_semantic_scholar. run_M.
  destruct (requests_get w _ _ _) as [response |]; [| by intros [= <- _]].
  destruct (status_code response =? 200); [| by intros [= <- _]].
  destruct (json_body response) as [data |]; [| by intros [= <- _]].
  destruct (py_in "data" data) as [[|] | e]; try by intros [= <- _].
  destruct (py_getitem data "data") as [items |]; [| by intros [= <- _]]. simpl.
  destruct (py_iter items) as [elements |]; [| by intros [= <- _]]. simpl.
  destruct (rmap _ elements) as [rs |] eqn:Hrs; [| by intros [= <- _]].
  intros [= <- _]. eapply rmap_Forall, Hrs. apply semantic_scholar_record_abstract.
Qed.

Lemma search_crossref_abstracts py w query limit s papers s' :
  search_crossref py w query limit s = (Ok papers, s') ->
  Forall abstract_bounded papers.
Proof.
  unfold search_crossref. run_M.
  destruct (requests_get w _ _ _) as [response |]; [| by intros [= <- _]].
  destruct (status_code response =? 200); [| by intros [= <- _]].
  destruct (json_body response) as [data |]; [| by intros [= <- _]].
  destruct (rbind (py_in "message" data) _) as [[|] | e]; try by intros [= <- _].
  destruct (py_getitem data "message") as [message |]; [| by intros [= <- _]]. simpl.
  destruct (py_getitem message "items") as [items |]; [| by intros [= <- _]]. simpl.
  destruct (py_iter items) as [elements |]; [| by intros [= <- _]]. simpl.
  destruct (rmap _ elements) as [rs |] eqn:Hrs; [| by intros [= <- _]].
  intros [= <- _]. eapply rmap_Forall, Hrs. intros x y Hxy.
  eapply crossref_record_abstract, Hxy.
Qed.

(** C9, at an item whose [year] is [null]: [paper.get('year', 'N/A')]
    finds the key and returns its value, so the record that
    [search_semantic_scholar] emits has the year [None] and no placeholder. *)
Theorem search_semantic_scholar_null_year :
  fst (search_semantic_scholar ascii_py (serving null_year_body crossref_body None)
         "effects of x" 14 fresh)
  = Ok [{| title := PStr "Effects of X";
           url := PStr "https://www.semanticscholar.org/paper/a1";
           year := PNone;
           abstract := PStr "We study X." |}].
Proof. reflexivity. Qed.

(** A [null] abstract cannot be sliced: the [TypeError] is caught by the
    adapter, which then returns no result at all, the complete first item
    included. *)
Example search_semantic_scholar_null_abstract :
  semantic_scholar_record ascii_py
    (PDict [("paperId", PStr "b2"); ("title", PStr "Sleep and memory");
            ("abstract", PNone)])
  = Raise TypeError
  /\ fst (search_semantic_scholar ascii_py (serving null_abstract_body crossref_body None)
            "effects of x" 14 fresh)
     = Ok [].
Proof. split; reflexivity. Qed.

(** A [null] title passes the adapter and makes [verify_information]
    raise on [.lower()]. *)
Example verify_information_null_title :
  fst (search_semantic_scholar ascii_py (serving null_title_body crossref_body None)
         "effects of x" 14 fresh)
  = Ok [{| title := PNone;
           url := PStr "https://www.semanticscholar.org/paper/a1";
           year := PStr "N/A";
           abstract := PStr "We study X." |}]
  /\ fst (verify_information ascii_py (serving null_title_body crossref_body None)
            "effects of x" 20 fresh)
     = Raise AttributeError.
Proof. split; vm_compute; reflexivity. Qed.

(** ** The chatbot *)

Lemma string_app_assoc (a b c : string) : (a ++ b) ++ c = a ++ (b ++ c).
Proof.
  induction a as [| x a IH]; [reflexivity |].
  change (String x ((a ++ b) ++ c) = String x (a ++ (b ++ c))). by rewrite IH.
Qed.

Lemma string_app_empty_r (a : string) : a ++ "" = a.
Proof.
  induction a as [| x a IH]; [reflexivity |].
  change (String x (a ++ "") = String x a). by rewrite IH.
Qed.

(** The loop over the last entries appends their serialization, oldest
    first. *)
Lemma fold_left_chat_entry entries conversation_prompt :
  fold_left chat_entry entries conversation_prompt
  = conversation_prompt ++ transcript entries.
Proof.
  revert conversation_prompt.
  induction entries as [| entry entries IH]; intros conversation_prompt; simpl.
  - by rewrite string_app_empty_r.
  - rewrite IH. unfold chat_entry. apply string_app_assoc.
Qed.

Lemma build_prompt_eq history user_message :
  build_prompt history user_message
  = persona ++ transcript (list_last_n 10 history) ++ current_message user_message.
Proof.
  unfold build_prompt. cbv zeta. rewrite fold_left_chat_entry. apply string_app_assoc.
Qed.

(** The route in closed form. *)
Lemma chatbot_run py w request_json s :
  chatbot py w request_json s
  = match request_message py request_json with
    | Raise _ => (Ok failure_response, s)
    | Ok user_message =>
        if String.eqb user_message "" then (Ok empty_message_response, s)
        else
          let prompt := build_prompt (turns s) user_message in
          let calls' := (calls s ++ [GenerateContent prompt])%list in
          match generate_content w prompt with
          | None =>
              (Ok failure_response,
               {| calls := calls'; chat_history := Some (turns s) |})
          | Some text =>
              let bot_reply := str_strip py text in
              (Ok {| status := 200; error := None; reply := bot_reply |},
               {| calls := calls';
                  chat_history :=
                    Some (turns s
                          ++ [{| user := user_message; assistant := bot_reply |}])%list |})
          end
    end.
Proof.
  unfold chatbot. run_M.
  destruct (request_message py request_json) as [user_message | e]; [| reflexivity].
  destruct (String.eqb user_message ""); [reflexivity |].
  unfold turns. destruct s as [cs [history |]]; simpl;
    destruct (generate_content w _); reflexivity.
Qed.

(** What the route does to the session depends on the turns it holds and on
    nothing else. *)
Lemma chatbot_same_turns py w request_json s1 s2 :
  turns s1 = turns s2 ->
  fst (chatbot py w request_json s1) = fst (chatbot py w request_json s2) /\
  turns (snd (chatbot py w request_json s1)) = turns (snd (chatbot py w request_json s2)) /\
  exists sent,
    calls (snd (chatbot py w request_json s1)) = (calls s1 ++ sent)%list /\
    calls (snd (chatbot py w request_json s2)) = (calls s2 ++ sent)%list.
Proof.
  intros Hturns. rewrite !chatbot_run, Hturns.
  destruct (request_message py request_json) as [user_message | e].
  - destruct (String.eqb user_message "").
    + simpl. repeat split; [exact Hturns |]. exists []. by rewrite !app_nil_r.
    + cbv zeta. destruct (generate_content w _); simpl; repeat split; eauto.
  - simpl. repeat split; [exact Hturns |]. exists []. by rewrite !app_nil_r.
Qed.

(** C6: when the text-generation provider fails, the route answers the fixed
    fallback and appends no turn: the session holds the same turns as before
    (a session that had a history keeps it as it is), so every later request
    gets the same answer, leaves the same turns and sends the same prompt as
    if the failed request had not been made. *)
Theorem chatbot_provider_failure py w request_json s user_message :
  request_message py request_json = Ok user_message ->
  user_message <> "" ->
  generate_content w (build_prompt (turns s) user_message) = None ->
  exists s',
    chatbot py w request_json s = (Ok failure_response, s') /\
    reply failure_response = "Sorry, I encountered an error. Please try again." /\
    turns s' = turns s /\
    (chat_history s <> None -> chat_history s' = chat_history s) /\
    calls s' = (calls s ++ [GenerateContent (build_prompt (turns s) user_message)])%list /\
    forall w' request_json',
      fst (chatbot py w' request_json' s') = fst (chatbot py w' request_json' s) /\
      turns (snd (chatbot py w' request_json' s'))
      = turns (snd (chatbot py w' request_json' s)) /\
      exists sent,
        calls (snd (chatbot py w' request_json' s')) = (calls s' ++ sent)%list /\
        calls (snd (chatbot py w' request_json' s)) = (calls s ++ sent)%list.
Proof.
  intros Hmessage Hnonempty Hfail.
  rewrite chatbot_run, Hmessage.
  destruct (String.eqb_spec user_message ""); [contradiction |].
  cbv zeta. rewrite Hfail. eexists. split; [reflexivity |].
  split; [reflexivity |]. split; [reflexivity |]. split; [| split; [reflexivity |]].
  - unfold turns. simpl. destruct (chat_history s); [reflexivity | contradiction].
  - intros w' request_json'. apply chatbot_same_turns. reflexivity.
Qed.

Lemma chatbot_provider_failure_witness :
  exists s',
    chatbot ascii_py offline (Some (message_json " Is coffee healthy? ")) after_fifteen
    = (Ok failure_response, s') /\
    reply failure_response = "Sorry, I encountered an error. Please try again." /\
    turns s' = turns after_fifteen /\
    (chat_history after_fifteen <> None -> chat_history s' = chat_history after_fifteen) /\
    calls s' = (calls after_fifteen
                ++ [GenerateContent
                      (build_prompt (turns after_fifteen) "Is coffee healthy?")])%list /\
    forall w' request_json',
      fst (chatbot ascii_py w' request_json' s')
      = fst (chatbot ascii_py w' request_json' after_fifteen) /\
      turns (snd (chatbot ascii_py w' request_json' s'))
      = turns (snd (chatbot ascii_py w' request_json' after_fifteen)) /\
      exists sent,
        calls (snd (chatbot ascii_py w' request_json' s')) = (calls s' ++ sent)%list /\
        calls (snd (chatbot ascii_py w' request_json' after_fifteen))
        = (calls after_fifteen ++ sent)%list.
Proof.
  apply (chatbot_provider_failure ascii_py offline
           (Some (message_json " Is coffee healthy? ")) after_fifteen "Is coffee healthy?").
  - reflexivity.
  - discriminate.
  - reflexivity.
Defined.






(** The session [after_fifteen] is reached from a new session by 15
    successful exchanges. *)
Lemma chat_all_ok py w requests s :
  Forall (fun request_json =>
            forall s', exists r s'',
              chatbot py w (Some request_json) s' = (Ok r, s'') /\ status r = 200)
         requests ->
  nsteps (chat_ok py) (length requests) s (chat_all py w requests s).
Proof.
  intros Hall. revert s. induction Hall as [| request_json requests Hok _ IH]; intros s.
  - constructor.
  - simpl. destruct (Hok s) as (r & s'' & Hrun & Hstatus).
    econstructor; [| apply IH].
    exists w, (Some request_json), r. rewrite Hrun. simpl. split; [reflexivity | exact Hstatus].
Qed.

Lemma after_fifteen_reached : nsteps (chat_ok ascii_py) 15 fresh after_fifteen.
Proof.
  apply (chat_all_ok ascii_py answering (map message_json fifteen_messages) fresh).
  repeat constructor; intros s'; rewrite chatbot_run; cbv zeta; eexists _, _;
    (split; [reflexivity | reflexivity]).
Qed.

(** The sixteenth prompt on that session: the turns 6 to 15 and the new
    message. *)
Example sixteenth_prompt :
  turns after_fifteen
  = map (fun m => {| user := m; assistant := "Certainly." |}) fifteen_messages
  /\ build_prompt (turns after_fifteen) "Is coffee healthy?"
     = persona
       ++ transcript
            (map (fun m => {| user := m; assistant := "Certainly." |})
               ["m6"; "m7"; "m8"; "m9"; "m10"; "m11"; "m12"; "m13"; "m14"; "m15"])
       ++ current_message "Is coffee healthy?".
Proof. split; vm_compute; reflexivity. Qed.

(** The prompt of a second message, character by character. *)
Example second_prompt_text :
  build_prompt [{| user := "Hi"; assistant := "Hello." |}] "Is coffee healthy?"
  = "You are a helpful AI assistant for an Information Authenticator app that verifies claims using academic research. Be concise, friendly, and informative."
    ++ String "010" (String "010"
         ("User: Hi"
          ++ String "010"
               ("Assistant: Hello."
                ++ String "010" (String "010"
                     ("User: Is coffee healthy?" ++ String "010" "Assistant:"))))).
Proof. vm_compute. reflexivity. Qed.

(** [clear_chat] empties the history: the next prompt replays no turn. *)
Lemma clear_chat_resets s user_message :
  let s' := snd (clear_chat s) in
  turns s' = [] /\
  build_prompt (turns s') user_message = persona ++ current_message user_message.
Proof. split; reflexivity. Qed.

(** ** Runs of the whole verification *)

(** Primary returns nothing, secondary two results with distinct titles. *)
Example verify_information_two_results :
  exists r s',
    verify_information ascii_py
      (serving (PDict [("data", PList [])]) two_items_body (Some "Two studies."))
      "vaccines cause autism" 20 fresh
    = (Ok r, s') /\
    found r = true /\ result_count r = 2 /\ confidence r = "Weak Evidence".
Proof. eexists _, _. split; [vm_compute; reflexivity |]. repeat split. Qed.

(** An integer too large for a double: [limit * 0.7] raises before any
    request is sent. *)
Example verify_information_overflow :
  verify_information ascii_py offline "q" (2 ^ 1024) fresh = (Raise OverflowError, fresh).
Proof. vm_compute. reflexivity. Qed.

(** * Further properties of the code *)

(** ** Confidence labels *)

Lemma calculate_confidence_monotone_witness :
  label_rank (calculate_confidence 3) <= label_rank (calculate_confidence 12).
Proof. apply (calculate_confidence_monotone 3 12). lia. Defined.

(** The rank of the label of a non-negative count. *)
Lemma label_rank_of_count (n : Z) :
  0 <= n ->
  label_rank (calculate_confidence n)
  = if n =? 0 then 0 else if n <=? 3 then 1 else if n <=? 9 then 2 else 3.
Proof.
  intros Hn. unfold calculate_confidence.
  destruct (Z.eqb_spec n 0); [reflexivity |].
  destruct (Z.leb_spec 1 n); [| lia].
  destruct (Z.leb_spec n 3); [reflexivity |]. simpl.
  destruct (Z.leb_spec 4 n); [| lia].
  destruct (Z.leb_spec n 9); reflexivity.
Qed.

(** ** The adapters *)

Lemma rmap_length {A B} (f : A -> result B) l ys :
  rmap f l = Ok ys -> length ys = length l.
Proof.
  revert ys. induction l as [| x l IH]; simpl; intros ys H.
  - by injection H as <-.
  - destruct (f x) as [y |]; [| discriminate]. simpl in H.
    destruct (rmap f l) as [ys' |]; [| discriminate]. injection H as <-.
    simpl. f_equal. by apply IH.
Qed.

(** X2: [search_semantic_scholar] never raises, sends exactly one request
    and leaves the session alone.  Its result is all or nothing: one record
    per item of [data['data']], in order, when the provider answered 200 with
    such items and every item could be converted; the empty list in every
    other case (no answer, another status, a body that is not JSON or has no
    items, one item that cannot be converted). *)
Ltac adapter_done := solve [eexists; (split; [reflexivity | reflexivity])].

Theorem search_semantic_scholar_outcome py w query limit s :
  exists papers,
    search_semantic_scholar py w query limit s
    = (Ok papers, add_call s (semantic_scholar_request query limit)) /\
    match semantic_scholar_items w query limit with
    | Some items =>
        match rmap (semantic_scholar_record py) items with
        | Ok records => papers = records /\ length papers = length items
        | Raise _ => papers = []
        end
    | None => papers = []
    end.
Proof.
  unfold search_semantic_scholar, semantic_scholar_items, add_call,
    semantic_scholar_request. run_M.
  destruct (requests_get w _ _ _) as [response |]; [| adapter_done].
  destruct (status_code response =? 200); [| adapter_done].
  destruct (json_body response) as [data |]; [| adapter_done].
  destruct data as [| b | z | f | t | l | d]; cbn [py_in py_getitem rbind]; try adapter_done.
  - destruct (is_substring "data" t); try adapter_done.
  - destruct (existsb (is_pstr "data") l); try adapter_done.
  - destruct (dict_lookup "data" d) as [items |] eqn:Hd.
    + rewrite bool_decide_eq_true_2 by eauto. cbn [rbind].
      destruct (py_iter items) as [elements |]; cbn [rbind]; [| adapter_done].
      destruct (rmap (semantic_scholar_record py) elements) as [records |] eqn:Hr;
        eexists; (split; [reflexivity |]); [| reflexivity].
      split; [reflexivity | eapply rmap_length, Hr].
    + rewrite bool_decide_eq_false_2 by (intros [? ?]; discriminate). adapter_done.
Qed.

(** X3: the same for [search_crossref], whose items are
    [data['message']['items']]. *)
Theorem search_crossref_outcome py w query limit s :
  exists papers,
    search_crossref py w query limit s
    = (Ok papers, add_call s (crossref_request query limit)) /\
    match crossref_items w query limit with
    | Some items =>
        match rmap (crossref_record py) items with
        | Ok records => papers = records /\ length papers = length items
        | Raise _ => papers = []
        end
    | None => papers = []
    end.
Proof.
  unfold search_crossref, crossref_items, add_call, crossref_request. run_M.
  destruct (requests_get w _ _ _) as [response |]; [| adapter_done].
  destruct (status_code response =? 200); [| adapter_done].
  destruct (json_body response) as [data |]; [| adapter_done].
  destruct data as [| b | z | f | t | l | d]; cbn [py_in py_getitem rbind]; try adapter_done.
  - destruct (is_substring "message" t); try adapter_done.
  - destruct (existsb (is_pstr "message") l); try adapter_done.
  - destruct (dict_lookup "message" d) as [message |] eqn:Hd.
    + rewrite bool_decide_eq_true_2 by eauto. cbn [rbind].
      destruct message as [| b | z | f | t | l | m]; cbn [py_in py_getitem rbind]; try adapter_done.
      * destruct (is_substring "items" t); try adapter_done.
      * destruct (existsb (is_pstr "items") l); try adapter_done.
      * destruct (dict_lookup "items" m) as [items |] eqn:Hm.
        -- rewrite bool_decide_eq_true_2 by eauto. cbn [rbind].
           destruct (py_iter items) as [elements |]; cbn [rbind]; [| adapter_done].
           destruct (rmap (crossref_record py) elements) as [records |] eqn:Hr;
             eexists; (split; [reflexivity |]); [| reflexivity].
           split; [reflexivity | eapply rmap_length, Hr].
        -- rewrite bool_decide_eq_false_2 by (intros [? ?]; discriminate). adapter_done.
    + rewrite bool_decide_eq_false_2 by (intros [? ?]; discriminate). adapter_done.
Qed.

Lemma search_crossref_Forall py (P : PaperRecord -> Prop) w query limit s papers s' :
  (forall item r, crossref_record py item = Ok r -> P r) ->
  search_crossref py w query limit s = (Ok papers, s') ->
  Forall P papers.
Proof.
  intros HP. unfold search_crossref. run_M.
  destruct (requests_get w _ _ _) as [response |]; [| by intros [= <- _]].
  destruct (status_code response =? 200); [| by intros [= <- _]].
  destruct (json_body response) as [data |]; [| by intros [= <- _]].
  destruct (rbind (py_in "message" data) _) as [[|] | e]; try by intros [= <- _].
  destruct (py_getitem data "message") as [message |]; [| by intros [= <- _]]. simpl.
  destruct (py_getitem message "items") as [items |]; [| by intros [= <- _]]. simpl.
  destruct (py_iter items) as [elements |]; [| by intros [= <- _]]. simpl.
  destruct (rmap _ elements) as [rs |] eqn:Hrs; [| by intros [= <- _]].
  intros [= <- _]. eapply rmap_Forall, Hrs. exact HP.
Qed.

Lemma crossref_record_url py item r :
  crossref_record py item = Ok r ->
  exists doi, py_get item "DOI" (PStr "") = Ok doi /\
              url r = PStr ("https://doi.org/" ++ py_str py doi).
Proof.
  unfold crossref_record.
  destruct (py_in "published" item) as [has_published |]; [| discriminate].
  cbn [rbind].
  match goal with
  | |- rbind ?year_result _ = _ -> _ => destruct year_result as [year_ |]; [| discriminate]
  end.
  cbn [rbind]. destruct (py_get item "title" _) as [titles |]; [| discriminate].
  cbn [rbind]. destruct (py_getitem0 titles) as [title_ |]; [| discriminate].
  cbn [rbind]. destruct (py_get item "DOI" _) as [doi |]; [| discriminate].
  cbn [rbind]. destruct (py_get item "abstract" _) as [abstract_ |]; [| discriminate].
  cbn [rbind]. destruct (py_slice_to _ 500) as [a |]; [| discriminate].
  intros [= <-]. cbn [url]. eauto.
Qed.

(** X4: whatever the providers answer, every record that either adapter
    returns has an abstract that is a [str] or a [list] of at most 500
    elements, and every CrossRef record has a textual [url] that starts with
    the DOI resolver's address. *)
Theorem adapter_records_bounded py w query limit1 limit2 s1 s2
    semantic_papers crossref_papers s1' s2' :
  search_semantic_scholar py w query limit1 s1 = (Ok semantic_papers, s1') ->
  search_crossref py w query limit2 s2 = (Ok crossref_papers, s2') ->
  Forall abstract_bounded (semantic_papers ++ crossref_papers) /\
  Forall (fun r => exists u, url r = PStr ("https://doi.org/" ++ u)) crossref_papers.
Proof.
  intros Hs Hc. split.
  - apply Forall_app. split.
    + eapply search_semantic_scholar_abstracts, Hs.
    + eapply search_crossref_abstracts, Hc.
  - eapply search_crossref_Forall, Hc. intros item r Hr.
    destruct (crossref_record_url py item r Hr) as (doi & _ & ->). eauto.
Qed.

Lemma adapter_records_bounded_witness :
  Forall abstract_bounded (semantic_example ++ crossref_example) /\
  Forall (fun r => exists u, url r = PStr ("https://doi.org/" ++ u)) crossref_example.
Proof.
  apply (adapter_records_bounded ascii_py example_world "effects of x" 14 6 fresh fresh
           semantic_example crossref_example
           (add_call fresh (semantic_scholar_request "effects of x" 14))
           (add_call fresh (crossref_request "effects of x" 6))).
  - reflexivity.
  - reflexivity.
Defined.

(** X5: an item of Semantic Scholar can be converted exactly when it is a
    [dict] whose ['abstract'], if the key is there, can be sliced (a [str] or
    a [list]): a [null] or numeric abstract, or an item that is not an
    object, makes the conversion raise. *)
Theorem semantic_scholar_record_ok_iff py item :
  (exists r, semantic_scholar_record py item = Ok r)
  <-> exists d, item = PDict d /\
                match dict_lookup "abstract" d with
                | Some a => sliceable a = true
                | None => True
                end.
Proof.
  unfold semantic_scholar_record. split.
  - intros [r Hr]. destruct item as [| b | z | f | t | l | d]; try discriminate.
    exists d. split; [reflexivity |]. cbn [py_get rbind] in Hr.
    destruct (dict_lookup "abstract" d) as [a |]; [| exact I].
    destruct a; try discriminate; reflexivity.
  - intros (d & -> & Ha). cbn [py_get rbind].
    destruct (dict_lookup "abstract" d) as [a |].
    + destruct a; try discriminate; cbn [py_slice_to rbind]; eauto.
    + cbn [py_slice_to rbind]. eauto.
Qed.

(** ** Combining: errors, edge cases, composition *)

Section CombineMore.

Variable py : builtins.

(** X6: the combination raises exactly when some title, anywhere in either
    list, is not a [str], and then it raises [AttributeError]; the limit and
    the other records play no role in that. *)
Theorem combine_papers_raises_iff primary secondary limit :
  match combine_papers py primary secondary limit with
  | Ok _ => forallb text_title primary = true /\ forallb text_title secondary = true
  | Raise e => e = AttributeError /\
               (forallb text_title primary = false \/ forallb text_title secondary = false)
  end.
Proof.
  rewrite combine_papers_eq, forallb_app.
  destruct (forallb text_title primary), (forallb text_title secondary); simpl; auto.
Qed.



Lemma kept_crossref_nil secondary :
  forallb text_title secondary = true -> kept_crossref py [] secondary = secondary.
Proof.
  unfold kept_crossref. induction secondary as [| c secondary IH]; [reflexivity |].
  simpl. intros [Hc Hs]%andb_true_iff.
  destruct (lower_title_text py c Hc) as [t Ht].
  unfold is_new at 1. rewrite Ht. simpl. f_equal. exact (IH Hs).
Qed.

(** X8: with no primary result, every secondary result is kept, in order
    and with its repetitions, up to the limit. *)
Theorem combine_papers_no_primary secondary limit :
  forallb text_title secondary = true ->
  combine_papers py [] secondary limit = Ok (list_slice_to secondary limit).
Proof.
  intros Hs. rewrite combine_papers_eq. simpl. rewrite Hs, kept_crossref_nil by exact Hs.
  reflexivity.
Qed.

Lemma filter_sublist {A} (f : A -> bool) (l : list A) : List.filter f l `sublist_of` l.
Proof.
  induction l as [| x l IH]; simpl; [constructor |].
  destruct (f x); by constructor.
Qed.

Lemma list_slice_to_sublist {A} (l : list A) limit : list_slice_to l limit `sublist_of` l.
Proof. unfold list_slice_to. destruct (0 <=? limit); apply sublist_take. Qed.

(** X9: the combination invents and reorders nothing: for any limit, also
    zero or negative, what it returns is a subsequence of the primary list
    followed by the secondary list. *)
Theorem combine_papers_sublist primary secondary limit r :
  combine_papers py primary secondary limit = Ok r ->
  r `sublist_of` (primary ++ secondary)%list.
Proof.
  rewrite combine_papers_eq.
  destruct (forallb text_title (primary ++ secondary)); [| discriminate].
  intros [= <-]. etrans; [apply list_slice_to_sublist |].
  apply sublist_app; [reflexivity | apply filter_sublist].
Qed.

(** X10: a limit of zero gives the empty list, and a negative limit is not
    an error: it cuts that many entries off the end of the combined list. *)
Theorem combine_papers_nonpositive_limit primary secondary limit r :
  limit <= 0 ->
  combine_papers py primary secondary limit = Ok r ->
  r = if limit =? 0 then []
      else take (length (primary ++ kept_crossref py primary secondary)%list
                  - Z.to_nat (- limit))%nat
             (primary ++ kept_crossref py primary secondary)%list.
Proof.
  intros Hlimit. rewrite combine_papers_eq.
  destruct (forallb text_title (primary ++ secondary)); [| discriminate].
  intros [= <-]. unfold list_slice_to.
  destruct (Z.eqb_spec limit 0) as [-> | Hne]; [reflexivity |].
  destruct (Z.leb_spec 0 limit); [lia |]. f_equal. lia.
Qed.

(** X22: when the primary list alone reaches a positive limit, the result
    is its first [limit] entries and no secondary result gets in. *)
Theorem combine_papers_primary_fills primary secondary limit :
  0 < limit <= Z.of_nat (length primary) ->
  forallb text_title (primary ++ secondary) = true ->
  combine_papers py primary secondary limit = Ok (take (Z.to_nat limit) primary).
Proof.
  intros Hlimit Htext. rewrite combine_papers_eq, Htext. unfold list_slice_to.
  destruct (Z.leb_spec 0 limit); [| lia]. by rewrite take_app_le by lia.
Qed.

End CombineMore.

Lemma combine_papers_primary_fills_witness :
  combine_papers ascii_py primary_dup secondary_dup 2 = Ok (take (Z.to_nat 2) primary_dup).
Proof.
  apply (combine_papers_primary_fills ascii_py primary_dup secondary_dup 2).
  - simpl. lia.
  - reflexivity.
Defined.


Lemma combine_papers_no_primary_witness :
  combine_papers ascii_py [] secondary_dup 2 = Ok (list_slice_to secondary_dup 2).
Proof. apply (combine_papers_no_primary ascii_py secondary_dup 2). reflexivity. Defined.

Lemma combine_papers_sublist_witness :
  [paper "Effects of X" "semantic"; paper "EFFECTS OF X" "semantic";
   paper "Sleep and memory" "crossref"]
  `sublist_of` (primary_dup ++ secondary_dup)%list.
Proof.
  apply (combine_papers_sublist ascii_py primary_dup secondary_dup 3).
  vm_compute. reflexivity.
Defined.

Lemma combine_papers_nonpositive_limit_witness :
  [paper "Effects of X" "semantic"; paper "EFFECTS OF X" "semantic";
   paper "Sleep and memory" "crossref"]
  = if (-1) =? 0 then []
    else take (length (primary_dup ++ kept_crossref ascii_py primary_dup secondary_dup)%list
               - Z.to_nat (- (-1)))%nat
           (primary_dup ++ kept_crossref ascii_py primary_dup secondary_dup)%list.
Proof.
  apply (combine_papers_nonpositive_limit ascii_py primary_dup secondary_dup (-1)).
  - lia.
  - vm_compute. reflexivity.
Defined.

(** ** The quota split on a range of limits *)

Lemma all_from_spec f start count k :
  all_from f start count = true ->
  start <= k < start + Z.of_nat count -> f k = true.
Proof.
  revert start. induction count as [| count IH]; intros start Hall Hk; [lia |].
  simpl in Hall. apply andb_true_iff in Hall as [Hstart Hrest].
  destruct (Z.eq_dec k start) as [-> | Hne]; [exact Hstart |].
  apply (IH (start + 1)); [exact Hrest | lia].
Qed.

(** X11: for every limit from 1 to 10000, [int(limit * 0.7)] does not
    raise and is 70% rounded down or one less; the primary quota is zero only
    at the limit 1, and the secondary quota, the remainder, is at least 1. *)
Theorem quota_split_in_range (limit : Z) :
  1 <= limit <= 10000 ->
  exists semantic_limit,
    int_mul_0_7 limit = Ok semantic_limit /\
    seventy_percent limit - 1 <= semantic_limit <= seventy_percent limit /\
    (semantic_limit = 0 <-> limit = 1) /\
    0 <= semantic_limit /\
    1 <= limit - semantic_limit.
Proof.
  intros Hlimit.
  assert (Hall : all_from quota_in_range 1 (Z.to_nat 10000) = true)
    by (vm_compute; reflexivity).
  pose proof (all_from_spec quota_in_range 1 (Z.to_nat 10000) limit Hall) as Hok.
  rewrite Z2Nat.id in Hok by lia. specialize (Hok ltac:(lia)).
  unfold quota_in_range in Hok.
  destruct (int_mul_0_7 limit) as [v | e]; [| discriminate].
  exists v. split; [reflexivity |].
  repeat (apply andb_true_iff in Hok as [Hok ?]).
  apply orb_true_iff in Hok.
  assert (0 <= v) by (by apply Z.leb_le).
  assert (v < limit) by (by apply Z.ltb_lt).
  assert (0 < v \/ limit = 1)
    by (match goal with
        | H : (0 <? v) || (limit =? 1) = true |- _ =>
            apply orb_true_iff in H as [H | H]; [left; by apply Z.ltb_lt | right; by apply Z.eqb_eq]
        end).
  assert (limit = 1 -> v = 0) by lia.
  repeat split; try lia; destruct Hok as [Hok | Hok]; apply Z.eqb_eq in Hok; lia.
Qed.

Lemma quota_split_in_range_witness :
  exists semantic_limit,
    int_mul_0_7 170 = Ok semantic_limit /\
    seventy_percent 170 - 1 <= semantic_limit <= seventy_percent 170 /\
    (semantic_limit = 0 <-> 170 = 1) /\
    0 <= semantic_limit /\
    1 <= 170 - semantic_limit.
Proof. apply (quota_split_in_range 170). lia. Defined.

(** ** The verification logic: response, trace, label *)

(** The two ways [verify_information] can go: the quota cannot be computed
    and nothing is done, or both adapters are called and the rest follows
    from what they returned. *)
Lemma verify_information_cases py w query limit s :
  (exists e, int_mul_0_7 limit = Raise e /\
             verify_information py w query limit s = (Raise e, s))
  \/ (exists semantic_limit semantic_papers crossref_papers,
        int_mul_0_7 limit = Ok semantic_limit /\
        search_semantic_scholar py w query semantic_limit s
        = (Ok semantic_papers, add_call s (semantic_scholar_request query semantic_limit)) /\
        search_crossref py w query (limit - semantic_limit)
          (add_call s (semantic_scholar_request query semantic_limit))
        = (Ok crossref_papers,
           add_call (add_call s (semantic_scholar_request query semantic_limit))
             (crossref_request query (limit - semantic_limit)))).
Proof.
  destruct (int_mul_0_7 limit) as [semantic_limit | e] eqn:Hquota.
  - right.
    destruct (search_semantic_scholar_run py w query semantic_limit s) as [ps Hs].
    destruct (search_crossref_run py w query (limit - semantic_limit)
                (add_call s (semantic_scholar_request query semantic_limit))) as [pc Hc].
    eauto 10.
  - left. exists e. split; [reflexivity |].
    unfold verify_information, bind, lift. rewrite Hquota. reflexivity.
Qed.

Lemma log_requests_app l1 l2 : log_requests (l1 ++ l2) = (log_requests l1 ++ log_requests l2)%list.
Proof. apply omap_app. Qed.

Lemma provider_calls_app l1 l2 :
  provider_calls (l1 ++ l2) = (provider_calls l1 ++ provider_calls l2)%list.
Proof. apply omap_app. Qed.

(** X12: a response of [verify_information] is consistent with itself:
    [result_count] is the number of [results], [found] says whether there is
    one, [confidence] is the label of that count, and without results the
    summary is the fixed sentence. *)
Theorem verify_information_response_consistent py w query limit s r s' :
  verify_information py w query limit s = (Ok r, s') ->
  result_count r = Z.of_nat (length (results r)) /\
  found r = negb (bool_decide (results r = [])) /\
  confidence r = calculate_confidence (result_count r) /\
  (found r = false -> summary r = "No research papers found to generate a summary.").
Proof.
  intros Hrun.
  destruct (verify_information_cases py w query limit s)
    as [(e & _ & He) | (sl & ps & pc & Hquota & Hs & Hc)].
  { rewrite He in Hrun. discriminate. }
  rewrite (verify_information_run _ _ _ _ _ _ _ _ _ _ Hquota Hs Hc) in Hrun.
  destruct (combine_papers py ps pc limit) as [[| p all_papers] | e]; [| | discriminate];
    cbv zeta in Hrun; injection Hrun as <- _; cbn [results result_count found confidence summary].
  - repeat split; reflexivity.
  - repeat split; try reflexivity. discriminate.
Qed.

Lemma verify_information_response_consistent_witness :
  let r := {| found := true;
              confidence := "Weak Evidence";
              result_count := 3;
              summary := "A summary.";
              results := semantic_example
                         ++ [{| title := PStr "Vaccines and autism";
                                url := PStr "https://doi.org/10.1000/v";
                                year := PStr "N/A";
                                abstract := PStr "No abstract available" |}] |} in
  result_count r = Z.of_nat (length (results r)) /\
  found r = negb (bool_decide (results r = [])) /\
  confidence r = calculate_confidence (result_count r) /\
  (found r = false -> summary r = "No research papers found to generate a summary.").
Proof.
  apply (verify_information_response_consistent ascii_py example_world "effects of x" 3 fresh
           _ (snd (verify_information ascii_py example_world "effects of x" 3 fresh))).
  vm_compute. reflexivity.
Defined.

(** X13: what [verify_information] does to the outside world.  It never
    touches the chat session.  When it returns, it has sent the two search
    requests with the two quotas, then called [save_query_to_db] once, with
    the returned count and label (whether that insertion succeeds is the
    business of [save_query_to_db], which swallows its failures), then called
    the text-generation provider once if there are results and not at all
    otherwise.  When it raises, it has called neither [save_query_to_db] nor
    the provider. *)
Theorem verify_information_trace py w query limit s res s' :
  verify_information py w query limit s = (res, s') ->
  chat_history s' = chat_history s /\
  match res with
  | Ok r =>
      exists semantic_limit,
        int_mul_0_7 limit = Ok semantic_limit /\
        calls s'
        = (calls s
           ++ [semantic_scholar_request query semantic_limit;
               crossref_request query (limit - semantic_limit);
               DbInsert query (result_count r) (confidence r)]
           ++ (if found r
               then [GenerateContent
                       (summary_prompt (fold_left (summary_entry py) (results r) ""))]
               else []))%list
  | Raise _ =>
      log_requests (calls s') = log_requests (calls s) /\
      provider_calls (calls s') = provider_calls (calls s)
  end.
Proof.
  intros Hrun.
  destruct (verify_information_cases py w query limit s)
    as [(e & _ & He) | (sl & ps & pc & Hquota & Hs & Hc)].
  { rewrite He in Hrun. injection Hrun as <- <-. repeat split. }
  rewrite (verify_information_run _ _ _ _ _ _ _ _ _ _ Hquota Hs Hc) in Hrun.
  destruct (combine_papers py ps pc limit) as [[| p all_papers] | e];
    cbv zeta in Hrun; injection Hrun as <- <-; (split; [reflexivity |]).
  - exists sl. split; [exact Hquota |]. unfold add_call. cbn [calls found result_count confidence].
    rewrite <- !app_assoc. reflexivity.
  - exists sl. split; [exact Hquota |].
    unfold add_call. cbn [calls found result_count confidence results].
    rewrite <- !app_assoc. reflexivity.
  - unfold add_call. cbn [calls]. rewrite <- app_assoc, log_requests_app, provider_calls_app.
    cbn. by rewrite !app_nil_r.
Qed.

Lemma verify_information_trace_witness :
  let r := {| found := false;
              confidence := "Not supported";
              result_count := 0;
              summary := "No research papers found to generate a summary.";
              results := [] |} in
  let s' := {| calls := [semantic_scholar_request "q" 14; crossref_request "q" 6;
                         DbInsert "q" 0 "Not supported"];
               chat_history := None |} in
  chat_history s' = chat_history fresh /\
  exists semantic_limit,
    int_mul_0_7 20 = Ok semantic_limit /\
    calls s'
    = (calls fresh
       ++ [semantic_scholar_request "q" semantic_limit;
           crossref_request "q" (20 - semantic_limit);
           DbInsert "q" (result_count r) (confidence r)]
       ++ (if found r
           then [GenerateContent
                   (summary_prompt (fold_left (summary_entry ascii_py) (results r) ""))]
           else []))%list.
Proof.
  apply (verify_information_trace ascii_py offline "q" 20 fresh
           (Ok {| found := false;
                  confidence := "Not supported";
                  result_count := 0;
                  summary := "No research papers found to generate a summary.";
                  results := [] |})).
  vm_compute. reflexivity.
Defined.

(** X14: for a positive limit the returned count is between 0 and the
    limit, so the label never ranks above the label of the limit itself: a
    limit below 10 cannot give "Strong Evidence", a limit below 4 cannot give
    "Moderate Evidence". *)
Theorem verify_information_label_bound py w query limit s r s' :
  0 < limit ->
  verify_information py w query limit s = (Ok r, s') ->
  0 <= result_count r <= limit /\
  label_rank (confidence r) <= label_rank (calculate_confidence limit) /\
  (limit < 10 -> confidence r <> "Strong Evidence") /\
  (limit < 4 -> confidence r <> "Moderate Evidence").
Proof.
  intros Hlimit Hrun.
  assert (Hcount : 0 <= result_count r <= limit /\
                   confidence r = calculate_confidence (result_count r)).
  { destruct (verify_information_cases py w query limit s)
      as [(e & _ & He) | (sl & ps & pc & Hquota & Hs & Hc)].
    { rewrite He in Hrun. discriminate. }
    rewrite (verify_information_run _ _ _ _ _ _ _ _ _ _ Hquota Hs Hc) in Hrun.
    rewrite combine_papers_eq in Hrun.
    destruct (forallb text_title (ps ++ pc)); [| discriminate].
    pose proof (length_list_slice_to (ps ++ kept_crossref py ps pc) limit ltac:(lia)) as Hlen.
    destruct (list_slice_to (ps ++ kept_crossref py ps pc) limit) as [| p all_papers];
      cbv zeta in Hrun; injection Hrun as <- _; cbn [result_count confidence].
    - split; [lia | reflexivity].
    - cbn [length] in Hlen. split; [lia | reflexivity]. }
  destruct Hcount as [Hcount ->]. split; [exact Hcount |].
  rewrite !label_rank_of_count by lia.
  assert (Hrank : label_rank (calculate_confidence (result_count r))
                  = if result_count r =? 0 then 0
                    else if result_count r <=? 3 then 1
                    else if result_count r <=? 9 then 2 else 3)
    by (apply label_rank_of_count; lia).
  repeat split.
  - destruct (Z.eqb_spec (result_count r) 0), (Z.eqb_spec limit 0),
      (Z.leb_spec (result_count r) 3), (Z.leb_spec limit 3),
      (Z.leb_spec (result_count r) 9), (Z.leb_spec limit 9); lia.
  - intros Hlt Hstrong. rewrite Hstrong in Hrank.
    destruct (Z.eqb_spec (result_count r) 0), (Z.leb_spec (result_count r) 3),
      (Z.leb_spec (result_count r) 9); vm_compute in Hrank; try discriminate; lia.
  - intros Hlt Hmoderate. rewrite Hmoderate in Hrank.
    destruct (Z.eqb_spec (result_count r) 0), (Z.leb_spec (result_count r) 3),
      (Z.leb_spec (result_count r) 9); vm_compute in Hrank; try discriminate; lia.
Qed.

Lemma verify_information_label_bound_witness :
  let r := {| found := true;
              confidence := "Weak Evidence";
              result_count := 3;
              summary := "A summary.";
              results := semantic_example
                         ++ [{| title := PStr "Vaccines and autism";
                                url := PStr "https://doi.org/10.1000/v";
                                year := PStr "N/A";
                                abstract := PStr "No abstract available" |}] |} in
  0 <= result_count r <= 3 /\
  label_rank (confidence r) <= label_rank (calculate_confidence 3) /\
  (3 < 10 -> confidence r <> "Strong Evidence") /\
  (3 < 4 -> confidence r <> "Moderate Evidence").
Proof.
  apply (verify_information_label_bound ascii_py example_world "effects of x" 3 fresh
           _ (snd (verify_information ascii_py example_world "effects of x" 3 fresh))).
  - lia.
  - vm_compute. reflexivity.
Defined.

(** ** The route [/verify] *)

(** X15: the route [/verify] never raises and never touches the chat
    session.  A missing or blank statement is answered 400 before anything
    is called.  Otherwise the stripped statement is verified with the fixed
    limit 20: the primary provider is asked for 14 results and the secondary
    for 6; the answer is 200 with at most 20 results after one call to
    [save_query_to_db] with the returned count and label (an insertion
    attempt, which may fail silently), or 500 with neither
    [save_query_to_db] nor the provider called. *)
Theorem verify_route_outcome py w statement s :
  let query := str_strip py (default "" statement) in
  exists response s',
    verify py w statement s = (Ok response, s') /\
    chat_history s' = chat_history s /\
    if String.eqb query "" then
      response = {| verify_status := 400;
                    verify_body := VerifyError "No query provided" false |} /\
      s' = s
    else
      (exists rest,
         calls s' = (calls s ++ semantic_scholar_request query 14
                             :: crossref_request query 6 :: rest)%list) /\
      ((exists r,
          response = {| verify_status := 200; verify_body := VerifyResult r |} /\
          Z.of_nat (length (results r)) <= 20 /\
          log_requests (calls s')
          = (log_requests (calls s) ++ [(query, result_count r, confidence r)])%list)
       \/ (response = {| verify_status := 500;
                         verify_body := VerifyError "Internal server error" false |} /\
           log_requests (calls s') = log_requests (calls s) /\
           provider_calls (calls s') = provider_calls (calls s))).
Proof.
  intros query. unfold verify. fold query. cbv zeta. unfold try_except, bind, ret.
  destruct (String.eqb query ""); [eexists _, _; repeat split |].
  assert (Hquota : int_mul_0_7 20 = Ok 14) by (vm_compute; reflexivity).
  destruct (verify_information_cases py w query 20 s)
    as [(e & He & _) | (sl & ps & pc & Hsl & Hs & Hc)]; [congruence |].
  assert (sl = 14) as -> by congruence.
  rewrite (verify_information_run _ _ _ _ _ _ _ _ _ _ Hquota Hs Hc), combine_papers_eq.
  change (20 - 14) with 6.
  destruct (forallb text_title (ps ++ pc)).
  - pose proof (length_list_slice_to (ps ++ kept_crossref py ps pc) 20 ltac:(lia)) as Hlen.
    destruct (list_slice_to (ps ++ kept_crossref py ps pc) 20) as [| p all_papers];
      cbv zeta; eexists _, _; (split; [reflexivity |]); (split; [reflexivity |]);
      unfold add_call; cbn [calls]; (split; [rewrite <- !app_assoc; eexists; reflexivity |]);
      left; eexists; (split; [reflexivity |]); cbn [results result_count confidence].
    + split; [simpl; lia |]. rewrite <- !app_assoc, !log_requests_app. reflexivity.
    + split; [exact Hlen |]. rewrite <- !app_assoc, !log_requests_app. cbn.
      rewrite ?app_nil_r. reflexivity.
  - eexists _, _. split; [reflexivity |]. split; [reflexivity |].
    unfold add_call; cbn [calls]. split; [rewrite <- !app_assoc; eexists; reflexivity |].
    right. split; [reflexivity |].
    rewrite <- !app_assoc, log_requests_app, provider_calls_app. cbn.
    rewrite ?app_nil_r. split; reflexivity.
Qed.

(** ** The chatbot: validation, growth of the history, replay window *)

(** X16: how the route [/chatbot] validates a request.  A body that is not
    JSON or not an object, or a ['message'] that is not text ([null], a
    number), is answered 500; an object without ['message'], or with one that
    strips to nothing, is answered 400.  In all these cases the session and
    the trace are left exactly as they were: nothing is stored and nobody is
    called. *)
Theorem chatbot_validation py w request_json s :
  match request_json with
  | Some (PDict d) =>
      match dict_lookup "message" d with
      | None =>
          str_strip py "" = "" ->
          chatbot py w request_json s = (Ok empty_message_response, s)
      | Some (PStr message) =>
          str_strip py message = "" ->
          chatbot py w request_json s = (Ok empty_message_response, s)
      | Some _ => chatbot py w request_json s = (Ok failure_response, s)
      end
  | _ => chatbot py w request_json s = (Ok failure_response, s)
  end.
Proof.
  rewrite chatbot_run. unfold request_message.
  destruct request_json as [[| b | z | f | t | l | d] |]; try reflexivity.
  cbn [rbind py_get].
  destruct (dict_lookup "message" d) as [[| b | z | f | t | l | m] |]; try reflexivity;
    cbn [strip_message]; intros ->; reflexivity.
Qed.

Lemma chatbot_validation_witness :
  chatbot ascii_py answering (Some (PDict [("text", PStr "hello")])) after_fifteen
  = (Ok empty_message_response, after_fifteen)
  /\ chatbot ascii_py answering (Some (message_json "   ")) after_fifteen
     = (Ok empty_message_response, after_fifteen).
Proof.
  split.
  - apply (chatbot_validation ascii_py answering
             (Some (PDict [("text", PStr "hello")])) after_fifteen).
    reflexivity.
  - apply (chatbot_validation ascii_py answering (Some (message_json "   ")) after_fifteen).
    reflexivity.
Defined.

Lemma turns_Some cs history :
  turns {| calls := cs; chat_history := Some history |} = history.
Proof. reflexivity. Qed.

(** One request: the history grows by at most one turn, at its end. *)
Lemma chatbot_turns_step py w request_json s :
  turns s `prefix_of` turns (snd (chatbot py w request_json s)) /\
  (length (turns (snd (chatbot py w request_json s))) <= length (turns s) + 1)%nat.
Proof.
  rewrite chatbot_run.
  destruct (request_message py request_json) as [user_message | e];
    [destruct (String.eqb user_message "");
     [| cbv zeta; destruct (generate_content w _) as [text |]] |];
    cbn [snd]; try (split; [reflexivity | lia]).
  - rewrite !turns_Some, length_app. cbn [length].
    split; [by apply prefix_app_r | lia].
  - rewrite !turns_Some. split; [reflexivity | lia].
Qed.

(** X17: the route [/chatbot] never raises and answers 200, 400 or 500.
    It only ever appends to the history, at most one turn per request; it
    sends at most one call, to the text-generation provider, and writes
    nothing to the query log.  An answer 200 means that exactly one turn was
    stored and exactly one call sent. *)
Theorem chatbot_never_raises py w request_json s :
  exists r s' sent,
    chatbot py w request_json s = (Ok r, s') /\
    (status r = 200 \/ status r = 400 \/ status r = 500) /\
    turns s `prefix_of` turns s' /\
    (length (turns s') <= length (turns s) + 1)%nat /\
    calls s' = (calls s ++ map GenerateContent sent)%list /\
    (length sent <= 1)%nat /\
    (status r = 200 -> length (turns s') = (length (turns s) + 1)%nat /\ length sent = 1%nat).
Proof.
  pose proof (chatbot_turns_step py w request_json s) as [Hprefix Hlength].
  rewrite chatbot_run in *.
  destruct (request_message py request_json) as [user_message | e];
    [destruct (String.eqb user_message "");
     [| cbv zeta in *; destruct (generate_content w _) as [text |]] |];
    cbn [snd] in *.
  - exists empty_message_response, s, []. cbn [map]. rewrite app_nil_r.
    do 6 (split; [first [reflexivity | assumption | cbn; lia | auto] |]).
    intros H. cbv in H. discriminate H.
  - eexists _, _, [_]. cbn [map].
    do 6 (split; [first [reflexivity | assumption | cbn; lia | auto] |]).
    intros _. rewrite turns_Some, length_app. cbn. lia.
  - eexists _, _, [_]. cbn [map].
    do 6 (split; [first [reflexivity | assumption | cbn; lia | auto] |]).
    intros H. cbv in H. discriminate H.
  - exists failure_response, s, []. cbn [map]. rewrite app_nil_r.
    do 6 (split; [first [reflexivity | assumption | cbn; lia | auto] |]).
    intros H. cbv in H. discriminate H.
Qed.



(** X19: the route looks at the last ten turns only: on two sessions whose
    last ten turns are the same, the same request gets the same answer and
    sends the same prompt, however the older turns differ. *)
Theorem chatbot_window py w request_json s1 s2 :
  list_last_n 10 (turns s1) = list_last_n 10 (turns s2) ->
  fst (chatbot py w request_json s1) = fst (chatbot py w request_json s2) /\
  exists sent,
    calls (snd (chatbot py w request_json s1)) = (calls s1 ++ sent)%list /\
    calls (snd (chatbot py w request_json s2)) = (calls s2 ++ sent)%list.
Proof.
  intros Hwindow. rewrite !chatbot_run.
  destruct (request_message py request_json) as [user_message | e].
  - destruct (String.eqb user_message "").
    + split; [reflexivity |]. exists []. by rewrite !app_nil_r.
    + cbv zeta. rewrite !build_prompt_eq, Hwindow.
      destruct (generate_content w _); (split; [reflexivity |]); eexists; split; reflexivity.
  - split; [reflexivity |]. exists []. by rewrite !app_nil_r.
Qed.

Lemma chatbot_window_witness :
  fst (chatbot ascii_py answering (Some (message_json "next")) after_fifteen)
  = fst (chatbot ascii_py answering (Some (message_json "next"))
           {| calls := []; chat_history := Some (drop 5 (turns after_fifteen)) |}) /\
  exists sent,
    calls (snd (chatbot ascii_py answering (Some (message_json "next")) after_fifteen))
    = (calls after_fifteen ++ sent)%list /\
    calls (snd (chatbot ascii_py answering (Some (message_json "next"))
                  {| calls := []; chat_history := Some (drop 5 (turns after_fifteen)) |}))
    = (calls {| calls := []; chat_history := Some (drop 5 (turns after_fifteen)) |}
       ++ sent)%list.
Proof.
  apply (chatbot_window ascii_py answering (Some (message_json "next")) after_fifteen
           {| calls := []; chat_history := Some (drop 5 (turns after_fifteen)) |}).
  vm_compute. reflexivity.
Defined.

(** X20: [clear_chat] empties the history of any session and calls nobody;
    the next accepted message is sent with the persona alone, no earlier
    turn, and after it the session holds at most that one turn. *)
Theorem clear_chat_then_chatbot py w request_json s user_message :
  request_message py request_json = Ok user_message ->
  user_message <> "" ->
  let s1 := snd (clear_chat s) in
  fst (clear_chat s) = Ok "Chat history cleared" /\
  calls s1 = calls s /\
  turns s1 = [] /\
  exists r s2,
    chatbot py w request_json s1 = (Ok r, s2) /\
    calls s2 = (calls s ++ [GenerateContent (persona ++ current_message user_message)])%list /\
    (length (turns s2) <= 1)%nat /\
    (status r = 200 ->
     turns s2 = [{| user := user_message; assistant := reply r |}]).
Proof.
  intros Hmessage Hnonempty s1. subst s1.
  split; [reflexivity |]. split; [reflexivity |]. split; [reflexivity |].
  rewrite chatbot_run, Hmessage.
  destruct (String.eqb_spec user_message ""); [contradiction |].
  cbv zeta. rewrite build_prompt_eq.
  change (turns (snd (clear_chat s))) with (@nil ChatTurn).
  change (list_last_n 10 []) with (@nil ChatTurn).
  change (transcript []) with "".
  change ("" ++ current_message user_message) with (current_message user_message).
  destruct (generate_content w _) as [text |]; eexists _, _;
    (split; [reflexivity |]); (split; [reflexivity |]); (split; [cbn; lia |]).
  - intros _. reflexivity.
  - discriminate.
Qed.

Lemma clear_chat_then_chatbot_witness :
  let s1 := snd (clear_chat after_fifteen) in
  fst (clear_chat after_fifteen) = Ok "Chat history cleared" /\
  calls s1 = calls after_fifteen /\
  turns s1 = [] /\
  exists r s2,
    chatbot ascii_py answering (Some (message_json "again")) s1 = (Ok r, s2) /\
    calls s2 = (calls after_fifteen
                ++ [GenerateContent (persona ++ current_message "again")])%list /\
    (length (turns s2) <= 1)%nat /\
    (status r = 200 -> turns s2 = [{| user := "again"; assistant := reply r |}]).
Proof.
  apply (clear_chat_then_chatbot ascii_py answering (Some (message_json "again"))
           after_fifteen "again").
  - reflexivity.
  - discriminate.
Defined.

(** X21: over any sequence of requests the history is append-only: the
    turns held before are a prefix of the turns held after, and the session
    holds at most one more turn per request. *)
Theorem chat_all_append_only py w requests s :
  turns s `prefix_of` turns (chat_all py w requests s) /\
  (length (turns (chat_all py w requests s)) <= length (turns s) + length requests)%nat.
Proof.
  unfold chat_all. revert s. induction requests as [| request_json requests IH]; intros s.
  - simpl. split; [reflexivity | lia].
  - simpl.
    destruct (chatbot_turns_step py w (Some request_json) s) as [Hprefix Hlen].
    destruct (IH (snd (chatbot py w (Some request_json) s))) as [IHp IHl].
    split; [by etrans | lia].
Qed.
